(** * The inventory ledger of allocate_medical_product.py

    A shallow embedding of the [Database] class: the three tables its
    schema declares, the pyodbc connection it opens with
    [autocommit=False], and its methods, written in a small
    state-and-exception monad so that [commit], [rollback] and Python's
    [try]/[except] appear where the source has them.

    The store is the one the schema describes: primary keys drawn from
    IDENTITY(1,1) counters, the UNIQUE hospital name, the two FOREIGN KEY
    constraints of [allocations] (checked on INSERT and, having no ON
    DELETE action, on DELETE of the referenced row), the range of INT, the
    width of the NVARCHAR columns, and FLOAT arithmetic rounded to the
    nearest double. A value is converted to the type of its column when
    it is written to a row, so an UPDATE that matches no row converts
    nothing. A string that is longer than its column is refused, also
    where the store would only cut off trailing blanks. Logging, cursors,
    a failing connection and the Tk front end are left out: none of them
    changes a table. *)

From Stdlib Require Import ZArith QArith Qround Lqa String DecimalString.
From stdpp Require Import base option list gmap strings sorting.

Open Scope string_scope.
Open Scope list_scope.
Open Scope Z_scope.

(** ** Values *)

(** A FLOAT value stands for the rational it denotes; NaN and the
    infinities are not represented. *)
Definition float := Q.

(** A string is the sequence of its characters, each of which takes one
    position of an NVARCHAR column. *)
Definition fits_width (w : nat) (s : string) : bool :=
  (String.length s <=? w)%nat.

(** A DATETIME value is a count of ticks of the store's clock. *)
Definition datetime := Z.

(** The [qty] argument of [allocate] is whatever number the caller passes. *)
Inductive number :=
| PyInt (n : Z)
| PyFloat (x : float).

(** [str(n)] for an integer. *)
Definition str (n : Z) : string := NilZero.string_of_int (Z.to_int n).

(** Python compares an int with a float by their exact values. *)
Definition num_value (v : number) : Q :=
  match v with
  | PyInt n => inject_Z n
  | PyFloat x => x
  end.

(** [v <= n] *)
Definition num_le (v : number) (n : Z) : bool :=
  match v with
  | PyInt m => m <=? n
  | PyFloat x => Qle_bool x (inject_Z n)
  end.

(** [v > n] *)
Definition num_gt (v : number) (n : Z) : bool :=
  match v with
  | PyInt m => n <? m
  | PyFloat x => negb (Qle_bool x (inject_Z n))
  end.

(** The store converts a FLOAT to INT by dropping the fraction. *)
Definition float_to_int (x : float) : Z :=
  if Qle_bool 0%Q x then Qfloor x else Qceiling x.

(** The value an INT column keeps when it is assigned [v]. *)
Definition as_int (v : number) : Z :=
  match v with
  | PyInt n => n
  | PyFloat x => float_to_int x
  end.

(** *** Rounding to a double

    The result of a FLOAT operation is the double nearest to the exact
    result, the one with the even significand when two are as near. The
    doubles around [x] are the multiples of 2^e, where e is 52 below the
    binary exponent of [x] and not below -1074. Magnitudes of 2^1024 and
    more, which overflow a double, do not arise from an INT and a
    quantity that passed the checks of [allocate]. *)

Definition pow2 (e : Z) : Q :=
  if 0 <=? e then inject_Z (2 ^ e) else (/ inject_Z (2 ^ (- e)))%Q.

Definition round_half_even (x : Q) : Z :=
  let f := Qfloor x in
  match (x - inject_Z f ?= 1 # 2)%Q with
  | Lt => f
  | Gt => f + 1
  | Eq => if Z.even f then f else f + 1
  end.

(** For [x >= 0]. *)
Definition ulp_exponent (x : Q) : Z :=
  Z.max (-1074) (Z.log2 (Qfloor (x * inject_Z (2 ^ 1074))) - 1074 - 52).

(** For [x >= 0]. *)
Definition round_abs (x : Q) : Q :=
  (inject_Z (round_half_even (x * pow2 (- ulp_exponent x))) * pow2 (ulp_exponent x))%Q.

Definition to_double (x : Q) : float :=
  if Qle_bool 0%Q x then round_abs x else (- round_abs (- x))%Q.

(** [q - ?] for an INT column [q]: integer arithmetic for an int
    parameter; for a float one the INT is converted to FLOAT (exactly, as
    every INT is a double), the difference is a FLOAT, rounded as such,
    and the column keeps it converted back to INT. *)
Definition int_minus (q : Z) (v : number) : Z :=
  match v with
  | PyInt n => q - n
  | PyFloat x => float_to_int (to_double (inject_Z q - x))
  end.

(** The range of an INT column. *)
Definition fits_int (n : Z) : bool := (-2147483648 <=? n) && (n <=? 2147483647).

(** ** Tables *)

(** [items]: every column but the identity [id], which is the key. *)
Record item_row := Item {
  i_type : string;
  i_name : string;
  i_diameter : option float;
  i_length : option Z;
  i_price : option float;
  i_qty : Z
}.

Record allocation_row := Allocation {
  a_id : Z;
  a_hospital_id : Z;
  a_item_id : Z;
  a_qty : Z;
  a_price_at_alloc : option float;
  a_ts : datetime
}.

(** [hospitals] and [items] are keyed by their primary key [id];
    [allocations] is kept as the rows in the order they were inserted
    (the source never updates or deletes one). *)
Record tables := Tables {
  hospitals : gmap Z string;
  items : gmap Z item_row;
  allocations : list allocation_row
}.

(** The IDENTITY(1,1) counters. The store hands out a value for every
    INSERT it attempts and does not take it back on failure or rollback. *)
Record identities := Identities {
  next_hospital : Z;
  next_item : Z;
  next_allocation : Z
}.

(** The connection: what the last commit left, what the open transaction
    sees, and the identity counters. *)
Record connection := Connection {
  committed : tables;
  session : tables;
  identity : identities
}.

(** A connection with no uncommitted work. *)
Definition at_rest (t : tables) (n : identities) : connection :=
  Connection t t n.

Definition with_hospitals (t : tables) (h : gmap Z string) : tables :=
  Tables h (items t) (allocations t).
Definition with_items (t : tables) (i : gmap Z item_row) : tables :=
  Tables (hospitals t) i (allocations t).
Definition with_allocations (t : tables) (a : list allocation_row) : tables :=
  Tables (hospitals t) (items t) a.

Definition set_qty (q : Z) (r : item_row) : item_row :=
  Item (i_type r) (i_name r) (i_diameter r) (i_length r) (i_price r) q.

Definition set_details (name : string) (diameter : option float)
    (length : option Z) (price : option float) (r : item_row) : item_row :=
  Item (i_type r) name diameter length price (i_qty r).

(** ** Exceptions and the monad *)

(** Python's [ValueError] with its message, and the two pyodbc errors the
    store can answer a statement with: [IntegrityError] (the argument
    names the constraint that was violated) and [DataError]. *)
Inductive exn :=
| ValueError (msg : string)
| IntegrityError (constraint : string)
| DataError (msg : string).

Inductive outcome (A : Type) :=
| Returns (a : A)
| Raises (e : exn).
Arguments Returns {A} a.
Arguments Raises {A} e.

Definition M (A : Type) : Type := connection -> outcome A * connection.

Definition ret {A} (a : A) : M A := fun c => (Returns a, c).

Definition bind {A B} (m : M A) (k : A -> M B) : M B :=
  fun c =>
    match m c with
    | (Returns a, c') => k a c'
    | (Raises e, c') => (Raises e, c')
    end.

Definition raise {A} (e : exn) : M A := fun c => (Raises e, c).

(** [try: body except Exception as e: handler e] *)
Definition try_except {A} (body : M A) (handler : exn -> M A) : M A :=
  fun c =>
    match body c with
    | (Returns a, c') => (Returns a, c')
    | (Raises e, c') => handler e c'
    end.

Declare Scope db_scope.
Delimit Scope db_scope with db.
Notation "x <- m ;; k" := (bind m (fun x => k))
  (at level 100, m at next level, right associativity) : db_scope.
Notation "m ;; k" := (bind m (fun _ => k))
  (at level 100, right associativity) : db_scope.
Open Scope db_scope.

Definition read {A} (f : tables -> A) : M A :=
  fun c => (Returns (f (session c)), c).

Definition write (f : tables -> tables) : M unit :=
  fun c => (Returns tt, Connection (committed c) (f (session c)) (identity c)).

(** [self.conn.commit()] *)
Definition commit : M unit :=
  fun c => (Returns tt, Connection (session c) (session c) (identity c)).

(** [self.conn.rollback()] *)
Definition rollback : M unit :=
  fun c => (Returns tt, Connection (committed c) (committed c) (identity c)).

Definition fresh_hospital_id : M Z :=
  fun c => let n := identity c in
    (Returns (next_hospital n),
     Connection (committed c) (session c)
       (Identities (next_hospital n + 1) (next_item n) (next_allocation n))).

Definition fresh_item_id : M Z :=
  fun c => let n := identity c in
    (Returns (next_item n),
     Connection (committed c) (session c)
       (Identities (next_hospital n) (next_item n + 1) (next_allocation n))).

Definition fresh_allocation_id : M Z :=
  fun c => let n := identity c in
    (Returns (next_allocation n),
     Connection (committed c) (session c)
       (Identities (next_hospital n) (next_item n) (next_allocation n + 1))).

(** ** The statements the methods execute *)

(** SELECT qty, price FROM items WHERE id=? ; [fetchone()] *)
Definition select_qty_price (item_id : Z) : M (option (Z * option float)) :=
  read (fun t => (fun r => (i_qty r, i_price r)) <$> items t !! item_id).

(** UPDATE items SET qty = qty - ? WHERE id=? *)
Definition update_items_take (qty : number) (item_id : Z) : M unit :=
  write (fun t =>
    with_items t (alter (fun r => set_qty (int_minus (i_qty r) qty) r) item_id (items t))).

(** An integer bound to an INT column must be in its range. *)
Definition check_int (n : Z) : M unit :=
  if fits_int n then ret tt
  else raise (DataError "Arithmetic overflow error converting expression to data type int").

Definition check_opt_int (n : option Z) : M unit :=
  match n with
  | Some n => check_int n
  | None => ret tt
  end.

(** A string bound to an NVARCHAR(w) column must fit it. *)
Definition check_width (w : nat) (s : string) : M unit :=
  if fits_width w s then ret tt
  else raise (DataError "String or binary data would be truncated").

(** INSERT INTO allocations (hospital_id, item_id, qty, price_at_alloc, ts):
    [hospital_id] is the integer the caller passed, which the store has
    to convert to INT; both FOREIGN KEY constraints of the schema are
    checked. The other two INT columns get values that are in range:
    [item_id] is the id of the row that the SELECT of the same call
    found, and [qty] is above 0 and not above the quantity of that row. *)
Definition insert_allocation (hospital_id item_id : Z) (qty : number)
    (price_at_alloc : option float) (now : datetime) : M unit :=
  id <- fresh_allocation_id ;;
  check_int hospital_id ;;
  t <- read (fun t => t) ;;
  match hospitals t !! hospital_id with
  | None => raise (IntegrityError "allocations.hospital_id REFERENCES hospitals(id)")
  | Some _ =>
    match items t !! item_id with
    | None => raise (IntegrityError "allocations.item_id REFERENCES items(id)")
    | Some _ =>
      write (fun t => with_allocations t
        (allocations t ++ [Allocation id hospital_id item_id (as_int qty) price_at_alloc now]))
    end
  end.

(** INSERT INTO hospitals (name): [name] is UNIQUE and NVARCHAR(200).
    A name that the table holds fits the column, so a name that is too
    long is not a taken one, and the order of the two tests cannot be
    seen. *)
Definition insert_hospital (name : string) : M unit :=
  id <- fresh_hospital_id ;;
  t <- read (fun t => t) ;;
  if bool_decide (map_Exists (fun _ n => n = name) (hospitals t))
  then raise (IntegrityError "hospitals.name UNIQUE")
  else
    check_width 200 name ;;
    write (fun t => with_hospitals t (<[id := name]> (hospitals t))).

(** DELETE FROM hospitals WHERE id=? : rejected while an allocation
    references the row (the foreign key has no ON DELETE action). *)
Definition delete_from_hospitals (hid : Z) : M unit :=
  t <- read (fun t => t) ;;
  if bool_decide (is_Some (hospitals t !! hid))
     && existsb (fun a => a_hospital_id a =? hid) (allocations t)
  then raise (IntegrityError "allocations.hospital_id REFERENCES hospitals(id)")
  else write (fun t => with_hospitals t (delete hid (hospitals t))).

(** DELETE FROM items WHERE id=? *)
Definition delete_from_items (item_id : Z) : M unit :=
  t <- read (fun t => t) ;;
  if bool_decide (is_Some (items t !! item_id))
     && existsb (fun a => a_item_id a =? item_id) (allocations t)
  then raise (IntegrityError "allocations.item_id REFERENCES items(id)")
  else write (fun t => with_items t (delete item_id (items t))).

(** INSERT INTO items (item_type, name, diameter, length, price, qty):
    [item_type] is NVARCHAR(50), [name] NVARCHAR(200), [length] and [qty]
    are INT. *)
Definition insert_item (r : item_row) : M unit :=
  id <- fresh_item_id ;;
  check_width 50 (i_type r) ;;
  check_width 200 (i_name r) ;;
  check_opt_int (i_length r) ;;
  check_int (i_qty r) ;;
  write (fun t => with_items t (<[id := r]> (items t))).

(** UPDATE items SET name=?, diameter=?, length=?, price=? WHERE id=? :
    when a row matches, [name] must fit NVARCHAR(200) and [length] INT. *)
Definition update_items_details (name : string) (diameter : option float)
    (length : option Z) (price : option float) (item_id : Z) : M unit :=
  row <- read (fun t => items t !! item_id) ;;
  match row with
  | None => ret tt
  | Some _ =>
    check_width 200 name ;;
    check_opt_int length ;;
    write (fun t =>
      with_items t (alter (set_details name diameter length price) item_id (items t)))
  end.

(** UPDATE items SET qty=? WHERE id=? *)
Definition update_items_qty (qty item_id : Z) : M unit :=
  row <- read (fun t => items t !! item_id) ;;
  match row with
  | None => ret tt
  | Some _ =>
    check_int qty ;;
    write (fun t => with_items t (alter (set_qty qty) item_id (items t)))
  end.

(** ** The methods of [Database] *)

Definition add_hospital (name : string) : M unit :=
  insert_hospital name ;;
  commit.

Definition delete_hospital (hid : Z) : M unit :=
  delete_from_hospitals hid ;;
  commit.

(** [qty or 0] *)
Definition or_zero (qty : option Z) : Z :=
  match qty with
  | Some q => q
  | None => 0
  end.

Definition add_item (item_type name : string) (diameter : option float)
    (length : option Z) (price : option float) (qty : option Z) : M unit :=
  insert_item (Item item_type name diameter length price (or_zero qty)) ;;
  commit.

Definition update_item (item_id : Z) (name : string) (diameter : option float)
    (length : option Z) (price : option float) : M unit :=
  update_items_details name diameter length price item_id ;;
  commit.

Definition set_stock (item_id qty : Z) : M unit :=
  update_items_qty qty item_id ;;
  commit.

Definition delete_item (item_id : Z) : M unit :=
  delete_from_items item_id ;;
  commit.

(** The three [ValueError]s that [allocate] raises, under the names the
    specification gives them. *)
Definition NotFoundError : exn := ValueError "Item not found".
Definition InvalidQuantityError : exn := ValueError "Quantity must be > 0".
Definition InsufficientStockError (available : Z) : exn :=
  ValueError ("Not enough stock (available=" ++ str available ++ ")")%string.

(** [now] is what [datetime.now()] returns during the call. *)
Definition allocate (item_id hospital_id : Z) (qty : number)
    (price_at_alloc : option float) (now : datetime) : M unit :=
  try_except
    (row <- select_qty_price item_id ;;
     match row with
     | None => raise NotFoundError
     | Some (avail, current_price) =>
       let price_at_alloc :=
         match price_at_alloc with
         | None => current_price
         | Some p => Some p
         end in
       if num_le qty 0 then raise InvalidQuantityError
       else if num_gt qty avail then raise (InsufficientStockError avail)
       else
         update_items_take qty item_id ;;
         insert_allocation hospital_id item_id qty price_at_alloc now ;;
         commit
     end)
    (fun e => rollback ;; raise e).

(** ** The reporting query *)

(** A row of the SELECT list: a.id, h.name, i.item_type, i.name,
    i.diameter, i.length, a.qty, a.price_at_alloc, a.ts. *)
Record report_row := Report {
  r_id : Z;
  r_hospital : string;
  r_item_type : string;
  r_item_name : string;
  r_diameter : option float;
  r_length : option Z;
  r_qty : Z;
  r_price_at_alloc : option float;
  r_ts : datetime
}.

(** A row of allocations a JOIN hospitals h ON a.hospital_id=h.id
    JOIN items i ON a.item_id=i.id. *)
Record joined_row := Joined {
  j_a : allocation_row;
  j_h_id : Z;
  j_h_name : string;
  j_i : item_row
}.

Definition join_allocation (t : tables) (a : allocation_row) : option joined_row :=
  match hospitals t !! a_hospital_id a with
  | None => None
  | Some h_name =>
    match items t !! a_item_id a with
    | None => None
    | Some i => Some (Joined a (a_hospital_id a) h_name i)
    end
  end.

Definition from_join (t : tables) : list joined_row :=
  omap (join_allocation t) (allocations t).

Definition select_list (j : joined_row) : report_row :=
  Report (a_id (j_a j)) (j_h_name j) (i_type (j_i j)) (i_name (j_i j))
    (i_diameter (j_i j)) (i_length (j_i j)) (a_qty (j_a j))
    (a_price_at_alloc (j_a j)) (a_ts (j_a j)).

(** [if hospital_id:] is false for [None] and for [0]. *)
Definition int_given (x : option Z) : option Z :=
  match x with
  | Some 0 => None
  | _ => x
  end.

(** [if date_from:] is false only for [None]: a datetime is never falsy. *)
Definition date_given (x : option datetime) : option datetime := x.

Definition ts_le (x y : joined_row) : Prop := a_ts (j_a x) <= a_ts (j_a y).

#[global] Instance ts_le_dec : RelDecision ts_le.
Proof. intros x y. unfold ts_le. apply Z_le_dec. Defined.

Definition fetch_allocations_for_report (hospital_id : option Z)
    (date_from date_to : option datetime) : M (list report_row) :=
  let clauses : list (joined_row -> bool) := [] in
  let clauses :=
    match int_given hospital_id with
    | Some hid => clauses ++ [fun j => j_h_id j =? hid]
    | None => clauses
    end in
  let clauses :=
    match date_given date_from with
    | Some d => clauses ++ [fun j => d <=? a_ts (j_a j)]
    | None => clauses
    end in
  let clauses :=
    match date_given date_to with
    | Some d => clauses ++ [fun j => a_ts (j_a j) <=? d]
    | None => clauses
    end in
  read (fun t =>
    let rows := List.filter (fun j => forallb (fun c => c j) clauses) (from_join t) in
    select_list <$> merge_sort ts_le rows).

(** ** Opening the store *)

Definition default_hospitals : list string :=
  ["Day hospital"; "Bahman hospital"; "Saman hospital"; "Kasra hospital";
   "Pars hospital"; "Baghiatolah hospital"].

Fixpoint insert_defaults (names : list string) : M unit :=
  match names with
  | [] => ret tt
  | h :: rest => try_except (insert_hospital h) (fun _ => ret tt) ;; insert_defaults rest
  end.

(** The tables exist with the shape [ensure_schema] creates them in; what
    is left of it is the seeding of an empty [hospitals]. *)
Definition ensure_schema : M unit :=
  commit ;;
  n <- read (fun t => size (hospitals t)) ;;
  if bool_decide (n = 0%nat) then insert_defaults default_hospitals ;; commit
  else ret tt.

Definition empty_tables : tables := Tables ∅ ∅ [].

(** A store created by the first run. *)
Definition first_run : connection :=
  Eval vm_compute in snd (ensure_schema (at_rest empty_tables (Identities 1 1 1))).

(** ** A small inventory used in the examples *)

Definition stent_a : item_row :=
  Item "Stent" "Stent A" (Some (3 # 1)%Q) (Some 18) (Some (100 # 1)%Q) 10.

Definition stocked : connection :=
  Eval vm_compute in
    snd (add_item "Stent" "Stent A" (Some (3 # 1)%Q) (Some 18) (Some (100 # 1)%Q)
           (Some 10) first_run).

(** [stocked] after 4 units of item 1 went to hospital 1. *)
Definition after_first_allocation : connection :=
  Eval vm_compute in snd (allocate 1 1 (PyInt 4) None 1000 stocked).

(** ** Sequences of allocations against one item *)

Record call := Call {
  c_hospital : Z;
  c_qty : number;
  c_price : option float;
  c_now : datetime
}.

(** The caller shows an error dialog for a failed call and goes on. The
    result is the final connection and the calls that returned, oldest
    first. *)
Fixpoint run_allocations (item_id : Z) (calls : list call) (c : connection)
    : connection * list call :=
  match calls with
  | [] => (c, [])
  | k :: rest =>
    match allocate item_id (c_hospital k) (c_qty k) (c_price k) (c_now k) c with
    | (Returns _, c') =>
      let (c'', done) := run_allocations item_id rest c' in (c'', k :: done)
    | (Raises _, c') => run_allocations item_id rest c'
    end
  end.

(** The stock of an item as the open transaction sees it. *)
Definition stock (c : connection) (item_id : Z) : option Z :=
  i_qty <$> items (session c) !! item_id.


(** The sum of the quantities that the rows of [l] record for an item. *)
Definition allocated_total (item_id : Z) (l : list allocation_row) : Z :=
  foldr (fun a s => if a_item_id a =? item_id then a_qty a + s else s) 0 l.

(** ** The operations a user can trigger *)

Inductive op :=
| AddHospital (name : string)
| DeleteHospital (hid : Z)
| AddItem (item_type name : string) (diameter : option float) (length : option Z)
    (price : option float) (qty : option Z)
| UpdateItem (item_id : Z) (name : string) (diameter : option float)
    (length : option Z) (price : option float)
| SetStock (item_id qty : Z)
| DeleteItem (item_id : Z)
| Allocate (item_id hospital_id : Z) (qty : number) (price_at_alloc : option float)
    (now : datetime).

Definition perform (o : op) : M unit :=
  match o with
  | AddHospital name => add_hospital name
  | DeleteHospital hid => delete_hospital hid
  | AddItem item_type name diameter length price qty =>
      add_item item_type name diameter length price qty
  | UpdateItem item_id name diameter length price =>
      update_item item_id name diameter length price
  | SetStock item_id qty => set_stock item_id qty
  | DeleteItem item_id => delete_item item_id
  | Allocate item_id hospital_id qty price_at_alloc now =>
      allocate item_id hospital_id qty price_at_alloc now
  end.

(** Each failure ends in an error dialog, after which the next operation
    runs on the same connection. *)
Definition run (ops : list op) (c : connection) : connection :=
  foldl (fun c o => snd (perform o c)) c ops.

(** ** Predicates used in the statements *)

(** Every allocation refers to a hospital and an item that exist. *)
Definition referential (t : tables) : Prop :=
  Forall (fun a => is_Some (hospitals t !! a_hospital_id a)
                   /\ is_Some (items t !! a_item_id a)) (allocations t).

(** The value of [v] is a whole number greater than zero. *)
Definition positive_integer (v : number) : Prop :=
  exists n : Z, 0 < n /\ (num_value v == inject_Z n)%Q.

(** An allocation passes the filters that are supplied. *)
Definition matches (hospital_id : option Z) (date_from date_to : option datetime)
    (a : allocation_row) : bool :=
  match hospital_id with Some h => a_hospital_id a =? h | None => true end
  && match date_from with Some d => d <=? a_ts a | None => true end
  && match date_to with Some d => a_ts a <=? d | None => true end.

(** The report row of an allocation: its own columns with the name of
    its hospital and the description of its item. *)
Definition report_of (t : tables) (a : allocation_row) : option report_row :=
  select_list <$> join_allocation t a.

Definition chronological (x y : report_row) : Prop := r_ts x <= r_ts y.

(** No item has a quantity below zero. *)
Definition stock_nonneg (t : tables) : Prop :=
  map_Forall (fun _ r => 0 <= i_qty r) (items t).

(** The operation does not itself pass a quantity below zero. *)
Definition passes_nonneg (o : op) : Prop :=
  match o with
  | AddItem _ _ _ _ _ qty => 0 <= or_zero qty
  | SetStock _ qty => 0 <= qty
  | _ => True
  end.

(** ** Shorthands for the statements *)

Definition bump_allocation (n : identities) : identities :=
  Identities (next_hospital n) (next_item n) (next_allocation n + 1).

Definition hospital_fk : exn :=
  IntegrityError "allocations.hospital_id REFERENCES hospitals(id)".

Definition item_fk : exn :=
  IntegrityError "allocations.item_id REFERENCES items(id)".

Definition recorded_price (override current : option float) : option float :=
  match override with
  | None => current
  | Some p => Some p
  end.

Definition allocated (t : tables) (n : identities) (item_id hospital_id : Z)
    (r : item_row) (qty : number) (override : option float) (now : datetime)
    : tables :=
  Tables (hospitals t)
    (<[item_id := set_qty (int_minus (i_qty r) qty) r]> (items t))
    (allocations t ++
       [Allocation (next_allocation n) hospital_id item_id (as_int qty)
          (recorded_price override (i_price r)) now]).

(** The example of the specification continued: 4 of 10 succeed, 7 fail,
    then 2.5 and 2 succeed, then 1 fails on a missing hospital; 1 is left. *)
Definition some_calls : list call :=
  [Call 1 (PyInt 4) None 1000; Call 1 (PyInt 7) None 1001;
   Call 2 (PyFloat (5 # 2)%Q) None 1002; Call 3 (PyInt 2) (Some (90 # 1)%Q) 1003;
   Call 99 (PyInt 1) None 1004].


(** 9 of 10, then 1e-17, then 1. *)
Definition tiny_calls : list call :=
  [Call 1 (PyInt 9) None 1000; Call 1 (PyFloat (1 # 100000000000000000)%Q) None 1001;
   Call 1 (PyInt 1) None 1002].

(** [stocked] after these calls. *)
Definition busy : connection :=
  Eval vm_compute in fst (run_allocations 1 some_calls stocked).

(** ** The other queries *)

(** SELECT id, name FROM hospitals ORDER BY name. How two names compare
    is the collation of the store, which the source does not choose: it
    is the parameter [collate]. *)
Definition by_name (collate : relation string) : relation (Z * string) :=
  fun x y => collate x.2 y.2.

#[global] Instance by_name_dec (collate : relation string) `{!RelDecision collate} :
  RelDecision (by_name collate).
Proof. intros x y. unfold by_name. apply _. Defined.

Definition fetch_hospitals (collate : relation string) `{!RelDecision collate}
    : M (list (Z * string)) :=
  read (fun t => merge_sort (by_name collate) (map_to_list (hospitals t))).

Definition ts_ge (x y : joined_row) : Prop := a_ts (j_a y) <= a_ts (j_a x).

#[global] Instance ts_ge_dec : RelDecision ts_ge.
Proof. intros x y. unfold ts_ge. apply Z_le_dec. Defined.

(** The same join ORDER BY a.ts DESC; [fetchmany(limit)]. *)
Definition fetch_recent_allocations (limit : nat) : M (list report_row) :=
  read (fun t => take limit (select_list <$> merge_sort ts_ge (from_join t))).

(** ** The report dialog and the report *)

(** The loop of [ReportDialog.apply]: the id of the first hospital of
    the list whose name is the text. *)
Fixpoint first_named (hospitals : list (Z * string)) (hosp_name : string)
    : option Z :=
  match hospitals with
  | [] => None
  | h :: rest =>
    if String.eqb h.2 hosp_name then Some h.1 else first_named rest hosp_name
  end.

(** [hid] of [ReportDialog.apply] for the text of the hospital box. *)
Definition dialog_hospital (hospitals : list (Z * string)) (hosp_name : string)
    : option Z :=
  if String.eqb hosp_name "All" then None else first_named hospitals hosp_name.

(** [total_count] as the loop of [generate_report] accumulates it. *)
Definition total_count (rows : list report_row) : Z :=
  foldl (fun total r => total + r_qty r) 0 rows.

(** [App.generate_report] for a dialog that was confirmed with the text
    [hosp_name] and two dates that parsed (or were left empty): the rows
    it keeps for the export, and the total it prints. *)
Definition generate_report (collate : relation string) `{!RelDecision collate}
    (hosp_name : string) (date_from date_to : option datetime)
    : M (list report_row * Z) :=
  hospitals <- fetch_hospitals collate ;;
  rows <- fetch_allocations_for_report (dialog_hospital hospitals hosp_name)
            date_from date_to ;;
  ret (rows, total_count rows).

(** ** Editing an item *)

(** What [AddItemDialog.apply] leaves in [result]. *)
Record item_form := Form {
  f_type : string;
  f_name : string;
  f_diameter : option float;
  f_length : option Z;
  f_price : option float;
  f_qty : option Z
}.

(** How [App.edit_selected_item] ends: the "Item not found" box, a
    cancelled dialog, the "Item updated" box, or the "Unable to update
    item" box for an exception. *)
Inductive edit_result :=
| ItemNotFound
| Cancelled
| ItemUpdated
| UnableToUpdate (e : exn).

(** [App.edit_selected_item] for the selected id and the answer of the
    dialog. The item is looked for by its id in what [fetch_items()]
    returns, which is every row of [items]. *)
Definition edit_selected_item (iid : Z) (dlg : option item_form) : M edit_result :=
  item <- read (fun t => items t !! iid) ;;
  match item with
  | None => ret ItemNotFound
  | Some _ =>
    match dlg with
    | None => ret Cancelled
    | Some r =>
      try_except
        (update_item iid (f_name r) (f_diameter r) (f_length r) (f_price r) ;;
         match f_qty r with
         | Some qty => set_stock iid qty
         | None => ret tt
         end ;;
         ret ItemUpdated)
        (fun e => ret (UnableToUpdate e))
    end
  end.

(** The quantity an edit leaves: that of the form when it has one. *)
Definition form_qty (r : item_form) (old : Z) : Z :=
  match f_qty r with
  | Some qty => qty
  | None => old
  end.

(** ** More predicates for the statements *)

(** Names compared character by character, as a binary collation does. *)
Definition binary_order : relation string := fun x y => String.leb x y = true.

#[global] Instance binary_order_dec : RelDecision binary_order.
Proof. intros x y. unfold binary_order. apply _. Defined.

(** The sum of the quantities the rows of [l] record. *)
Definition qty_total (l : list allocation_row) : Z :=
  foldr (fun a s => a_qty a + s) 0 l.


(** Every key was drawn from its identity counter, which started at 1;
    no two hospitals have the same name; the ids of the allocations
    increase in the order of insertion. *)
Definition well_keyed (t : tables) (n : identities) : Prop :=
  (1 <= next_hospital n /\ 1 <= next_item n /\ 1 <= next_allocation n)
  /\ (forall k, is_Some (hospitals t !! k) -> 1 <= k < next_hospital n)
  /\ (forall k, is_Some (items t !! k) -> 1 <= k < next_item n)
  /\ Forall (fun a => 1 <= a_id a < next_allocation n) (allocations t)
  /\ StronglySorted Z.lt (a_id <$> allocations t)
  /\ (forall k1 k2 name,
        hospitals t !! k1 = Some name -> hospitals t !! k2 = Some name -> k1 = k2).

Definition bump_hospital (n : identities) : identities :=
  Identities (next_hospital n + 1) (next_item n) (next_allocation n).

Definition bump_item (n : identities) : identities :=
  Identities (next_hospital n) (next_item n + 1) (next_allocation n).

Definition overflow : exn :=
  DataError "Arithmetic overflow error converting expression to data type int".

Definition truncation : exn := DataError "String or binary data would be truncated".

Definition unique_name : exn := IntegrityError "hospitals.name UNIQUE".

(** The INT values an item row binds are in range. *)
Definition fits_opt (n : option Z) : bool :=
  match n with
  | Some n => fits_int n
  | None => true
  end.

Definition is_allocate (o : op) : bool :=
  match o with
  | Allocate _ _ _ _ _ => true
  | _ => false
  end.

(** The call passes a Python int as its quantity. *)
Definition int_call (k : call) : Prop :=
  match c_qty k with
  | PyInt _ => True
  | PyFloat _ => False
  end.

Definition newest_first (x y : report_row) : Prop := r_ts y <= r_ts x.

(** The hospitals the tables hold under the six default names, from the
    identity value [k] on. *)
Definition seeded (k : Z) : gmap Z string :=
  list_to_map (zip (seqZ k 6) default_hospitals).

(** * Properties *)

(** ** The example states are what the code computes *)

Lemma example_states :
  first_run = snd (ensure_schema (at_rest empty_tables (Identities 1 1 1)))
  /\ stocked = snd (add_item "Stent" "Stent A" (Some (3 # 1)%Q) (Some 18)
                      (Some (100 # 1)%Q) (Some 10) first_run)
  /\ items (session stocked) !! 1 = Some stent_a
  /\ after_first_allocation = snd (allocate 1 1 (PyInt 4) None 1000 stocked)
  /\ busy = fst (run_allocations 1 some_calls stocked).
Proof. repeat split; vm_compute; reflexivity. Qed.

(** ** What [allocate] does from a connection at rest *)

(** Unfolds the monad so that a method becomes a function of the
    connection. *)
Ltac run_db :=
  unfold bind, read, write, commit, rollback, raise, ret, try_except,
    fresh_hospital_id, fresh_item_id, fresh_allocation_id, check_opt_int,
    check_int, check_width, at_rest;
  simpl.

Lemma with_items_same t : with_items t (items t) = t.
Proof. destruct t; reflexivity. Qed.

Lemma with_hospitals_same t : with_hospitals t (hospitals t) = t.
Proof. destruct t; reflexivity. Qed.

Lemma num_gt_positive qty q :
  0 <= q \/ num_le qty 0 = false -> num_gt qty q = true -> num_le qty 0 = false.
Proof.
  intros [Hq|H0]; [|intros _; exact H0].
  destruct qty as [m|x]; simpl.
  - intros H. apply Z.ltb_lt in H. apply Z.leb_gt. lia.
  - intros H. apply negb_true_iff in H.
    destruct (Qle_bool x (inject_Z 0)) eqn:H0; [|reflexivity].
    apply Qle_bool_iff in H0.
    assert (Qle_bool x (inject_Z q) = true) as Hx; [|congruence].
    apply Qle_bool_iff. eapply Qle_trans; [exact H0|].
    rewrite <- Zle_Qle. exact Hq.
Qed.

(** ** FLOAT arithmetic *)

Lemma pow2_pos e : (0 < pow2 e)%Q.
Proof.
  unfold pow2. destruct (Z.leb_spec 0 e).
  - rewrite <- (Zlt_Qlt 0). apply Z.pow_pos_nonneg; lia.
  - apply Qinv_lt_0_compat. rewrite <- (Zlt_Qlt 0). apply Z.pow_pos_nonneg; lia.
Qed.

Lemma pow2_cancel e : e <= 0 -> (inject_Z (2 ^ (- e)) * pow2 e == 1)%Q.
Proof.
  intros He. unfold pow2. destruct (Z.leb_spec 0 e).
  - assert (e = 0) as -> by lia. reflexivity.
  - apply Qmult_inv_r. intros H0.
    assert (0 < inject_Z (2 ^ (- e)))%Q as Hp
      by (rewrite <- (Zlt_Qlt 0); apply Z.pow_pos_nonneg; lia).
    rewrite H0 in Hp. apply (Qlt_irrefl 0). exact Hp.
Qed.

Lemma pow2_neg e : e <= 0 -> pow2 (- e) = inject_Z (2 ^ (- e)).
Proof. intros He. unfold pow2. destruct (Z.leb_spec 0 (- e)); [reflexivity|lia]. Qed.

Lemma round_half_even_le x z : (x <= inject_Z z)%Q -> round_half_even x <= z.
Proof.
  intros Hx. unfold round_half_even.
  pose proof (Qfloor_le x) as Hf.
  assert (Qfloor x <= z) as Hfz
    by (rewrite <- (Qfloor_Z z); apply Qfloor_resp_le, Hx).
  assert ((1 # 2 <= x - inject_Z (Qfloor x))%Q -> Qfloor x + 1 <= z) as Hup.
  { intros Hhalf. destruct (Z.eq_dec (Qfloor x) z) as [Heq|Hne]; [|lia].
    exfalso. rewrite Heq in Hhalf. lra. }
  destruct (x - inject_Z (Qfloor x) ?= 1 # 2)%Q eqn:Hc.
  - apply Qeq_alt in Hc. destruct (Z.even (Qfloor x)); [exact Hfz|].
    apply Hup. rewrite Hc. apply Qle_refl.
  - exact Hfz.
  - apply Qgt_alt in Hc. apply Hup. apply Qlt_le_weak. exact Hc.
Qed.

Lemma round_half_even_nonneg x : (0 <= x)%Q -> 0 <= round_half_even x.
Proof.
  intros Hx. unfold round_half_even.
  assert (0 <= Qfloor x) as Hf by (apply (Qfloor_resp_le 0 x), Hx).
  destruct (x - inject_Z (Qfloor x) ?= 1 # 2)%Q; [destruct (Z.even (Qfloor x))|..]; lia.
Qed.

Lemma ulp_exponent_small x z :
  (x <= inject_Z z)%Q -> z < 2 ^ 53 -> ulp_exponent x <= 0.
Proof.
  intros Hx Hz. unfold ulp_exponent. apply Z.max_lub; [lia|].
  set (s := Qfloor (x * inject_Z (2 ^ 1074))).
  destruct (Z.le_gt_cases s 0) as [Hs|Hs].
  - rewrite (Z.log2_nonpos s Hs). lia.
  - assert (Z.log2 s < 1127); [|lia].
    apply Z.log2_lt_pow2; [exact Hs|].
    assert (s <= z * 2 ^ 1074) as Hsz.
    { unfold s. rewrite <- (Qfloor_Z (z * 2 ^ 1074)). apply Qfloor_resp_le.
      rewrite inject_Z_mult. apply Qmult_le_compat_r; [exact Hx|].
      rewrite <- (Zle_Qle 0). apply Z.pow_nonneg. lia. }
    change (2 ^ 1127) with (2 ^ 53 * 2 ^ 1074).
    assert (0 < 2 ^ 1074) by (apply Z.pow_pos_nonneg; lia). nia.
Qed.

(** A value that is not negative does not round to a negative one. *)
Lemma to_double_nonneg x : (0 <= x)%Q -> (0 <= to_double x)%Q.
Proof.
  intros Hx. unfold to_double. rewrite (proj2 (Qle_bool_iff 0 x) Hx). unfold round_abs.
  apply Qmult_le_0_compat; [|apply Qlt_le_weak, pow2_pos].
  rewrite <- (Zle_Qle 0). apply round_half_even_nonneg.
  apply Qmult_le_0_compat; [exact Hx|apply Qlt_le_weak, pow2_pos].
Qed.

(** Rounding does not step over a whole number below 2^53. *)
Lemma to_double_le_int x z :
  (0 <= x)%Q -> (x <= inject_Z z)%Q -> z < 2 ^ 53 -> (to_double x <= inject_Z z)%Q.
Proof.
  intros H0 Hx Hz. unfold to_double. rewrite (proj2 (Qle_bool_iff 0 x) H0).
  unfold round_abs. pose proof (ulp_exponent_small x z Hx Hz) as He.
  set (e := ulp_exponent x) in *. rewrite (pow2_neg e He).
  assert (round_half_even (x * inject_Z (2 ^ (- e))) <= z * 2 ^ (- e)) as Hm.
  { apply round_half_even_le. rewrite inject_Z_mult.
    apply Qmult_le_compat_r; [exact Hx|].
    rewrite <- (Zle_Qle 0). apply Z.pow_nonneg. lia. }
  rewrite Zle_Qle, inject_Z_mult in Hm.
  apply (Qmult_le_compat_r _ _ (pow2 e)) in Hm; [|apply Qlt_le_weak, pow2_pos].
  rewrite <- Qmult_assoc, (pow2_cancel e He), Qmult_1_r in Hm. exact Hm.
Qed.

Lemma round_half_even_whole x z : (x == inject_Z z)%Q -> round_half_even x = z.
Proof.
  intros Hx. unfold round_half_even.
  assert (Qfloor x = z) as -> by (rewrite Hx; apply Qfloor_Z).
  assert ((x - inject_Z z ?= 1 # 2)%Q = Lt) as ->; [|reflexivity].
  apply (proj1 (Qlt_alt _ _)). rewrite Hx. unfold Qlt. simpl. lia.
Qed.

Lemma to_double_whole x m :
  (x == inject_Z m)%Q -> 0 <= m < 2 ^ 53 -> (to_double x == inject_Z m)%Q.
Proof.
  intros Hx [H0 Hm].
  assert (0 <= x)%Q as Hpos by (rewrite Hx, <- (Zle_Qle 0); exact H0).
  assert (x <= inject_Z m)%Q as Hle by (rewrite Hx; apply Qle_refl).
  unfold to_double. rewrite (proj2 (Qle_bool_iff 0 x) Hpos). unfold round_abs.
  pose proof (ulp_exponent_small x m Hle Hm) as He.
  set (e := ulp_exponent x) in *. rewrite (pow2_neg e He).
  rewrite (round_half_even_whole _ (m * 2 ^ (- e)))
    by (rewrite Hx, inject_Z_mult; reflexivity).
  rewrite inject_Z_mult, <- Qmult_assoc, (pow2_cancel e He). apply Qmult_1_r.
Qed.

Lemma float_to_int_whole x m : (x == inject_Z m)%Q -> float_to_int x = m.
Proof.
  intros Hx. unfold float_to_int.
  destruct (Qle_bool 0 x).
  - rewrite Hx. apply Qfloor_Z.
  - rewrite Hx. apply Qceiling_Z.
Qed.

Lemma fits_int_double q : fits_int q = true -> - 2 ^ 53 < q < 2 ^ 53.
Proof.
  unfold fits_int. intros H. apply andb_true_iff in H as [Hlo Hhi].
  apply Z.leb_le in Hlo, Hhi. change (2 ^ 53) with 9007199254740992. lia.
Qed.

(** A quantity whose value is a whole number [k], passed as an int or
    as a float, passes both checks of [allocate] when [0 < k <= q], takes
    [k] from the column and is recorded as [k]. *)
Lemma whole_quantity q qty k :
  (num_value qty == inject_Z k)%Q ->
  0 < k <= q ->
  q < 2 ^ 53 ->
  num_le qty 0 = false /\ num_gt qty q = false
  /\ int_minus q qty = q - k /\ as_int qty = k.
Proof.
  intros Hk [Hpos Hle] Hq. destruct qty as [m|x]; simpl in *.
  - apply (proj1 (inject_Z_injective m k)) in Hk. subst m.
    repeat split; [apply Z.leb_gt | apply Z.ltb_ge]; lia.
  - assert (Qle_bool x (inject_Z 0) = false) as H0.
    { apply not_true_is_false. intros H. apply Qle_bool_iff in H.
      rewrite Hk, <- Zle_Qle in H. lia. }
    assert (Qle_bool x (inject_Z q) = true) as H1.
    { apply Qle_bool_iff. rewrite Hk, <- Zle_Qle. exact Hle. }
    rewrite H0, H1. repeat split.
    + apply float_to_int_whole, to_double_whole; [|lia].
      rewrite Hk. unfold Zminus. rewrite inject_Z_plus, inject_Z_opp. reflexivity.
    + apply float_to_int_whole, Hk.
Qed.

Lemma update_item_allocations c item_id name diameter length price :
  allocations (session (snd (update_item item_id name diameter length price c)))
    = allocations (session c)
  /\ (allocations (committed c) = allocations (session c) ->
      allocations (committed (snd (update_item item_id name diameter length price c)))
        = allocations (session c)).
Proof.
  unfold update_item, update_items_details. run_db.
  destruct (items (session c) !! item_id); simpl; [|auto].
  destruct (fits_width 200 name); simpl; [|auto].
  destruct length as [l|]; [destruct (fits_int l)|]; simpl; auto.
Qed.

Section Allocate.

Variables (t : tables) (n : identities).
Variables (item_id hospital_id : Z) (qty : number).
Variables (override : option float) (now : datetime).

(** The whole of [allocate], branch by branch. *)
Lemma allocate_at_rest :
  allocate item_id hospital_id qty override now (at_rest t n) =
  match items t !! item_id with
  | None => (Raises NotFoundError, at_rest t n)
  | Some r =>
    if num_le qty 0 then (Raises InvalidQuantityError, at_rest t n)
    else if num_gt qty (i_qty r)
    then (Raises (InsufficientStockError (i_qty r)), at_rest t n)
    else if fits_int hospital_id then
      match hospitals t !! hospital_id with
      | None => (Raises hospital_fk, at_rest t (bump_allocation n))
      | Some _ =>
        (Returns tt,
         at_rest (allocated t n item_id hospital_id r qty override now)
           (bump_allocation n))
      end
    else (Raises overflow, at_rest t (bump_allocation n))
  end.
Proof.
  unfold allocate, select_qty_price. run_db.
  destruct (items t !! item_id) as [r|] eqn:Hr; simpl; [|reflexivity].
  destruct (num_le qty 0); [reflexivity|].
  destruct (num_gt qty (i_qty r)); [reflexivity|].
  unfold update_items_take, insert_allocation. run_db.
  destruct (fits_int hospital_id); simpl; [|reflexivity].
  destruct (hospitals t !! hospital_id) as [h|] eqn:Hh; simpl; [|reflexivity].
  rewrite lookup_alter_eq, Hr; simpl.
  unfold allocated, recorded_price, bump_allocation.
  rewrite alter_alt, Hr.
  destruct override; reflexivity.
Qed.

(** Whatever the connection holds, a call that raises ends on the last
    commit: the except branch has rolled back, and nothing was committed. *)
Lemma allocate_raises_rolled_back c e c' :
  allocate item_id hospital_id qty override now c = (Raises e, c') ->
  session c' = committed c /\ committed c' = committed c.
Proof.
  unfold allocate, select_qty_price. run_db.
  destruct (items (session c) !! item_id) as [r|]; simpl.
  - destruct (num_le qty 0); [intros [= <- <-]; auto|].
    destruct (num_gt qty (i_qty r)); [intros [= <- <-]; auto|].
    unfold update_items_take, insert_allocation. run_db.
    destruct (fits_int hospital_id); simpl; [|intros [= <- <-]; auto].
    destruct (hospitals (session c) !! hospital_id); simpl;
      [|intros [= <- <-]; auto].
    destruct (alter _ item_id (items (session c)) !! item_id); simpl;
      [discriminate | intros [= <- <-]; auto].
  - intros [= <- <-]; auto.
Qed.

(** C2: whenever [allocate] raises, the tables the connection sees and
    the committed tables are those from before the call; and a request
    that exceeds the quantity in stock raises [InsufficientStockError]
    carrying that quantity, with the connection as it was (the request is
    positive as soon as the stock is not negative). *)
Theorem allocate_failure_atomic :
  (forall e c',
     allocate item_id hospital_id qty override now (at_rest t n) = (Raises e, c') ->
     session c' = t /\ committed c' = t)
  /\ (forall r,
        items t !! item_id = Some r ->
        0 <= i_qty r \/ num_le qty 0 = false ->
        num_gt qty (i_qty r) = true ->
        allocate item_id hospital_id qty override now (at_rest t n) =
          (Raises (InsufficientStockError (i_qty r)), at_rest t n)).
Proof.
  split.
  - intros e c' H. exact (allocate_raises_rolled_back (at_rest t n) e c' H).
  - intros r Hr Hq Hgt. rewrite allocate_at_rest, Hr.
    rewrite (num_gt_positive qty (i_qty r) Hq Hgt), Hgt. reflexivity.
Qed.

(** C3, amended: for every existing item, a requested quantity that is
    zero or negative, whole or not, makes [allocate] raise
    [InvalidQuantityError] with the connection unchanged; any quantity
    above zero, whole or not, passes this check. *)
Theorem allocate_rejects_nonpositive :
  is_Some (items t !! item_id) ->
  (num_le qty 0 = true ->
     allocate item_id hospital_id qty override now (at_rest t n) =
       (Raises InvalidQuantityError, at_rest t n))
  /\ (num_le qty 0 = false ->
        fst (allocate item_id hospital_id qty override now (at_rest t n))
          <> Raises InvalidQuantityError).
Proof.
  intros [r Hr]. rewrite allocate_at_rest, Hr. split; intros ->; [reflexivity|].
  destruct (num_gt qty (i_qty r)); simpl; [discriminate|].
  destruct (fits_int hospital_id); simpl; [|discriminate].
  destruct (hospitals t !! hospital_id); simpl; discriminate.
Qed.

(** C4: when no item has the given id, [allocate] raises [NotFoundError]
    whatever quantity, hospital and price are passed, and the connection
    is unchanged. *)
Theorem allocate_missing_item :
  items t !! item_id = None ->
  allocate item_id hospital_id qty override now (at_rest t n) =
    (Raises NotFoundError, at_rest t n).
Proof. intros H. rewrite allocate_at_rest, H. reflexivity. Qed.

(** C10: for an existing item and a quantity that passes both checks,
    a hospital id that matches no hospital makes the INSERT fail and
    [allocate] raise the error of the store; after the rollback the
    tables, committed and seen, are those from before the call. The error
    is the violation of the foreign key on [hospital_id] for every id
    that is an INT (an id that is not one cannot be converted to the
    column, and the INSERT fails on that). *)
Theorem allocate_missing_hospital r :
  items t !! item_id = Some r ->
  hospitals t !! hospital_id = None ->
  num_le qty 0 = false ->
  num_gt qty (i_qty r) = false ->
  exists e c',
    allocate item_id hospital_id qty override now (at_rest t n) = (Raises e, c')
    /\ session c' = t /\ committed c' = t
    /\ (fits_int hospital_id = true -> e = hospital_fk).
Proof.
  intros Hr Hh H0 H1. rewrite allocate_at_rest, Hr, Hh, H0, H1.
  destruct (fits_int hospital_id); eexists _, _;
    (split; [reflexivity|]); repeat split; auto; discriminate.
Qed.

(** C8: an allocation that was made appended one row whose price is the
    override when one was passed and otherwise the price the item had at
    that moment (possibly none); and a later [update_item], whatever item
    and price it names, leaves the allocation rows exactly as they were. *)
Theorem price_snapshot c' :
  allocate item_id hospital_id qty override now (at_rest t n) = (Returns tt, c') ->
  exists r row,
    items t !! item_id = Some r
    /\ allocations (session c') = allocations t ++ [row]
    /\ a_price_at_alloc row =
         match override with
         | Some p => Some p
         | None => i_price r
         end
    /\ forall id name diameter length price,
         allocations (session (snd (update_item id name diameter length price c')))
           = allocations t ++ [row]
         /\ allocations (committed (snd (update_item id name diameter length price c')))
           = allocations t ++ [row].
Proof.
  rewrite allocate_at_rest.
  destruct (items t !! item_id) as [r|]; [|discriminate].
  destruct (num_le qty 0); [discriminate|].
  destruct (num_gt qty (i_qty r)); [discriminate|].
  destruct (fits_int hospital_id); [|discriminate].
  destruct (hospitals t !! hospital_id); [|discriminate].
  intros [= <-]. eexists r, _. split; [reflexivity|].
  split; [reflexivity|]. split; [destruct override; reflexivity|].
  intros id name diameter length price.
  destruct (update_item_allocations
              (at_rest (allocated t n item_id hospital_id r qty override now)
                 (bump_allocation n)) id name diameter length price) as [Hs Hc].
  split; [exact Hs | apply Hc; reflexivity].
Qed.

End Allocate.

(** ** C1: a valid allocation takes effect *)

(** C1, amended: for every item that exists with quantity q (an INT)
    and price p, every hospital that exists (under an INT id), and every
    requested quantity whose value is a whole number k with 0 < k <= q,
    passed as an int or as a float, [allocate] with no override price
    returns; afterwards the item's quantity is q - k, no other item or
    hospital has changed, and the allocations are the former ones
    followed by one new row recording hospital, item, quantity k, price p
    and the time of the call. *)
Theorem allocate_success t n item_id hospital_id r p qty k now :
  items t !! item_id = Some r ->
  i_price r = Some p ->
  fits_int (i_qty r) = true ->
  is_Some (hospitals t !! hospital_id) ->
  fits_int hospital_id = true ->
  (num_value qty == inject_Z k)%Q ->
  0 < k <= i_qty r ->
  allocate item_id hospital_id qty None now (at_rest t n) =
    (Returns tt,
     at_rest
       (Tables (hospitals t)
          (<[item_id := set_qty (i_qty r - k) r]> (items t))
          (allocations t ++
             [Allocation (next_allocation n) hospital_id item_id k (Some p) now]))
       (bump_allocation n)).
Proof.
  intros Hr Hp Hq [h Hh] Hid Hk Hle.
  destruct (whole_quantity (i_qty r) qty k Hk Hle) as (H0 & H1 & Hminus & Hint);
    [apply fits_int_double, Hq|].
  rewrite allocate_at_rest, Hr, Hh, H0, H1, Hid.
  unfold allocated; simpl. rewrite Hp, Hminus, Hint. reflexivity.
Qed.

(** The example of the specification: 10 in stock at 100.0, 4 allocated;
    and the same 4 passed as the float 4.0. *)
Lemma allocate_success_witness :
  allocate 1 1 (PyInt 4) None 1000 stocked = (Returns tt, after_first_allocation)
  /\ allocate 1 1 (PyFloat (4 # 1)%Q) None 1000 stocked
     = (Returns tt, after_first_allocation)
  /\ stock after_first_allocation 1 = Some 6
  /\ allocations (session after_first_allocation) =
       [Allocation 1 1 1 4 (Some (100 # 1)%Q) 1000].
Proof.
  assert (is_Some (hospitals (session stocked) !! 1)) as Hh
    by (exists "Day hospital"; reflexivity).
  assert (0 < 4 <= i_qty stent_a) as Hle by (simpl; lia).
  split; [|split; [|split; reflexivity]].
  - exact (allocate_success (session stocked) (identity stocked) 1 1
             stent_a (100 # 1)%Q (PyInt 4) 4 1000
             eq_refl eq_refl eq_refl Hh eq_refl (Qeq_refl _) Hle).
  - exact (allocate_success (session stocked) (identity stocked) 1 1
             stent_a (100 # 1)%Q (PyFloat (4 # 1)%Q) 4 1000
             eq_refl eq_refl eq_refl Hh eq_refl (Qeq_refl _) Hle).
Defined.

(** C1 as stated fails in two ways. When the hospital of the call does
    not exist: item 1 has 10 in stock at 100.0 and 4 are requested, yet
    the call raises and the stock stays 10. And when the quantity is not
    a whole number: 2.5 of these 10 are requested for a hospital that
    exists, the call returns, and the stock is 7 and the row records 2,
    where the claim says 7.5 and 2.5. *)
Lemma allocate_success_needs_hospital :
  items (session stocked) !! 1 = Some stent_a
  /\ i_price stent_a = Some (100 # 1)%Q
  /\ 0 < 4 <= i_qty stent_a
  /\ hospitals (session stocked) !! 99 = None
  /\ fst (allocate 1 99 (PyInt 4) None 1000 stocked) = Raises hospital_fk
  /\ stock (snd (allocate 1 99 (PyInt 4) None 1000 stocked)) 1 = Some 10
  /\ allocations (session (snd (allocate 1 99 (PyInt 4) None 1000 stocked))) = []
  /\ (0 < 5 # 2 <= inject_Z (i_qty stent_a))%Q
  /\ is_Some (hospitals (session stocked) !! 1)
  /\ fst (allocate 1 1 (PyFloat (5 # 2)%Q) None 1000 stocked) = Returns tt
  /\ stock (snd (allocate 1 1 (PyFloat (5 # 2)%Q) None 1000 stocked)) 1 = Some 7
  /\ allocations (session (snd (allocate 1 1 (PyFloat (5 # 2)%Q) None 1000 stocked)))
     = [Allocation 1 1 1 2 (Some (100 # 1)%Q) 1000].
Proof.
  repeat split; try (vm_compute; reflexivity); try (simpl; lia);
    try (vm_compute; discriminate).
  exists "Day hospital". reflexivity.
Qed.

(** ** C2: a failed allocation leaves no trace *)

(** After 4 of 10 are gone, asking for 7 fails with available=6; and a
    call for a hospital that is not there leaves the tables alone. *)
Lemma allocate_failure_atomic_witness :
  allocate 1 1 (PyInt 7) None 2000 after_first_allocation =
    (Raises (ValueError "Not enough stock (available=6)"), after_first_allocation)
  /\ fst (allocate 1 99 (PyInt 2) None 2000 after_first_allocation) = Raises hospital_fk
  /\ session (snd (allocate 1 99 (PyInt 2) None 2000 after_first_allocation))
     = session after_first_allocation.
Proof.
  pose proof (allocate_failure_atomic
                (session after_first_allocation) (identity after_first_allocation)
                1 1 (PyInt 7) None 2000) as [_ H1].
  pose proof (allocate_failure_atomic
                (session after_first_allocation) (identity after_first_allocation)
                1 99 (PyInt 2) None 2000) as [H2 _].
  split; [|split; [reflexivity|]].
  - apply (H1 (set_qty 6 stent_a)); [reflexivity | left; simpl; lia | reflexivity].
  - apply (H2 hospital_fk
             (snd (allocate 1 99 (PyInt 2) None 2000 after_first_allocation))).
    reflexivity.
Defined.

(** ** C3: quantities that are not positive *)

Lemma allocate_rejects_nonpositive_witness :
  allocate 1 1 (PyInt 0) None 1000 stocked = (Raises InvalidQuantityError, stocked)
  /\ allocate 1 1 (PyFloat (-5 # 2)%Q) None 1000 stocked
     = (Raises InvalidQuantityError, stocked)
  /\ fst (allocate 1 1 (PyFloat (5 # 2)%Q) None 1000 stocked)
     <> Raises InvalidQuantityError.
Proof.
  assert (is_Some (items (session stocked) !! 1)) as Hi
    by (exists stent_a; reflexivity).
  split; [|split].
  - apply (allocate_rejects_nonpositive (session stocked) (identity stocked)
             1 1 (PyInt 0) None 1000 Hi). reflexivity.
  - apply (allocate_rejects_nonpositive (session stocked) (identity stocked)
             1 1 (PyFloat (-5 # 2)%Q) None 1000 Hi). reflexivity.
  - apply (allocate_rejects_nonpositive (session stocked) (identity stocked)
             1 1 (PyFloat (5 # 2)%Q) None 1000 Hi). reflexivity.
Defined.

(** C3 as stated fails for a quantity that is not whole: 2.5 is accepted
    for an item with 10 in stock, the stock becomes 7 and a row recording
    2 is inserted. *)
Lemma allocate_accepts_fraction :
  is_Some (items (session stocked) !! 1)
  /\ ~ positive_integer (PyFloat (5 # 2)%Q)
  /\ fst (allocate 1 1 (PyFloat (5 # 2)%Q) None 1000 stocked) = Returns tt
  /\ stock (snd (allocate 1 1 (PyFloat (5 # 2)%Q) None 1000 stocked)) 1 = Some 7
  /\ allocations (session (snd (allocate 1 1 (PyFloat (5 # 2)%Q) None 1000 stocked)))
     = [Allocation 1 1 1 2 (Some (100 # 1)%Q) 1000].
Proof.
  split; [exists stent_a; reflexivity|].
  split; [|repeat split; reflexivity].
  intros [k [_ Hk]]. unfold Qeq in Hk. simpl in Hk. lia.
Qed.

(** ** C4: an item that does not exist *)

Lemma allocate_missing_item_witness :
  allocate 5 1 (PyInt (-3)) None 1000 stocked = (Raises NotFoundError, stocked)
  /\ allocate 5 1 (PyInt 1000) None 1000 stocked = (Raises NotFoundError, stocked).
Proof.
  split.
  - apply (allocate_missing_item (session stocked) (identity stocked)
             5 1 (PyInt (-3)) None 1000). reflexivity.
  - apply (allocate_missing_item (session stocked) (identity stocked)
             5 1 (PyInt 1000) None 1000). reflexivity.
Defined.

(** ** C10: a hospital that does not exist *)

(** No hospital has the id 99, nor the id 3000000000, which is no INT. *)
Lemma allocate_missing_hospital_witness :
  (exists c',
     allocate 1 99 (PyInt 4) None 1000 stocked = (Raises hospital_fk, c')
     /\ session c' = session stocked /\ committed c' = session stocked)
  /\ (exists e c',
        allocate 1 3000000000 (PyInt 4) None 1000 stocked = (Raises e, c')
        /\ session c' = session stocked /\ committed c' = session stocked).
Proof.
  split.
  - destruct (allocate_missing_hospital (session stocked) (identity stocked)
                1 99 (PyInt 4) None 1000 stent_a eq_refl eq_refl eq_refl eq_refl)
      as (e & c' & Hc & Hs & Hm & He).
    exists c'. rewrite <- (He eq_refl). auto.
  - destruct (allocate_missing_hospital (session stocked) (identity stocked)
                1 3000000000 (PyInt 4) None 1000 stent_a eq_refl eq_refl eq_refl eq_refl)
      as (e & c' & Hc & Hs & Hm & _).
    exists e, c'. auto.
Defined.

(** ** C8: the price of an allocation is a snapshot *)

(** 4 units allocated at the current price 100.0, then the price is
    changed to 250.0: the row still says 100.0. *)
Lemma price_snapshot_witness :
  exists row,
    allocations (session after_first_allocation) = [row]
    /\ a_price_at_alloc row = Some (100 # 1)%Q
    /\ allocations
         (session (snd (update_item 1 "Stent A" None None (Some (250 # 1)%Q)
                          after_first_allocation))) = [row].
Proof.
  destruct (price_snapshot (session stocked) (identity stocked) 1 1 (PyInt 4) None
              1000 after_first_allocation eq_refl)
    as (r & row & Hr & Ha & Hp & Hu).
  exists row.
  split; [exact Ha|]. split.
  - rewrite Hp. vm_compute in Hr. injection Hr as <-. reflexivity.
  - exact (proj1 (Hu 1 "Stent A" None None (Some (250 # 1)%Q))).
Defined.

(** ** C9: deleting a hospital or an item *)

Lemma existsb_Forall_false {A} (f : A -> bool) (l : list A) :
  Forall (fun a => f a = false) l -> existsb f l = false.
Proof. induction 1 as [|a l Ha _ IH]; simpl; [reflexivity|]. rewrite Ha. exact IH. Qed.

Lemma existsb_Exists_true {A} (f : A -> bool) (l : list A) :
  Exists (fun a => f a = true) l -> existsb f l = true.
Proof.
  induction 1 as [a l Ha|a l _ IH]; simpl.
  - rewrite Ha. reflexivity.
  - rewrite IH. apply orb_true_r.
Qed.

(** What the two methods do: neither removes or changes an allocation
    row. The hospital (item) is removed when no allocation row refers to
    it; when it exists and some row refers to it, the foreign key rejects
    the DELETE, the method raises, and the hospital (item) stays. *)
Lemma delete_keeps_allocations t n id :
  (allocations (session (snd (delete_hospital id (at_rest t n)))) = allocations t
   /\ allocations (committed (snd (delete_hospital id (at_rest t n)))) = allocations t
   /\ allocations (session (snd (delete_item id (at_rest t n)))) = allocations t
   /\ allocations (committed (snd (delete_item id (at_rest t n)))) = allocations t)
  /\ (Forall (fun a => a_hospital_id a <> id) (allocations t) ->
      delete_hospital id (at_rest t n)
        = (Returns tt, at_rest (with_hospitals t (delete id (hospitals t))) n))
  /\ (Forall (fun a => a_item_id a <> id) (allocations t) ->
      delete_item id (at_rest t n)
        = (Returns tt, at_rest (with_items t (delete id (items t))) n))
  /\ (is_Some (hospitals t !! id) ->
      Exists (fun a => a_hospital_id a = id) (allocations t) ->
      delete_hospital id (at_rest t n) = (Raises hospital_fk, at_rest t n))
  /\ (is_Some (items t !! id) ->
      Exists (fun a => a_item_id a = id) (allocations t) ->
      delete_item id (at_rest t n) = (Raises item_fk, at_rest t n)).
Proof.
  unfold delete_hospital, delete_item, delete_from_hospitals, delete_from_items.
  run_db.
  split; [|split; [|split; [|split]]].
  - destruct (bool_decide (is_Some (hospitals t !! id))
              && existsb (fun a => a_hospital_id a =? id) (allocations t));
    destruct (bool_decide (is_Some (items t !! id))
              && existsb (fun a => a_item_id a =? id) (allocations t));
    simpl; auto.
  - intros H. rewrite existsb_Forall_false, andb_false_r; [reflexivity|].
    eapply Forall_impl; [exact H|]. intros a Ha. apply Z.eqb_neq. exact Ha.
  - intros H. rewrite existsb_Forall_false, andb_false_r; [reflexivity|].
    eapply Forall_impl; [exact H|]. intros a Ha. apply Z.eqb_neq. exact Ha.
  - intros Hs H. rewrite bool_decide_eq_true_2 by exact Hs.
    rewrite existsb_Exists_true; [reflexivity|].
    eapply Exists_impl; [exact H|]. intros a Ha. apply Z.eqb_eq. exact Ha.
  - intros Hs H. rewrite bool_decide_eq_true_2 by exact Hs.
    rewrite existsb_Exists_true; [reflexivity|].
    eapply Exists_impl; [exact H|]. intros a Ha. apply Z.eqb_eq. exact Ha.
Qed.

(** C9 fails on the code: a hospital or an item that an allocation
    refers to is not removed. After 4 units of item 1 went to hospital 1,
    [delete_hospital 1] and [delete_item 1] raise the violation of the
    foreign key, and hospital 1 and item 1 are still there; the claim,
    and the question the user has confirmed ("This will not delete
    allocations history"), have them removed and the allocation kept. *)
Theorem delete_referenced_is_rejected :
  allocations (session after_first_allocation) = [Allocation 1 1 1 4 (Some (100 # 1)%Q) 1000]
  /\ fst (delete_hospital 1 after_first_allocation) = Raises hospital_fk
  /\ hospitals (session (snd (delete_hospital 1 after_first_allocation))) !! 1
     = Some "Day hospital"
  /\ fst (delete_item 1 after_first_allocation) = Raises item_fk
  /\ is_Some (items (session (snd (delete_item 1 after_first_allocation))) !! 1).
Proof. repeat split; try reflexivity. eexists; reflexivity. Qed.

(** Hospital 2, which has no allocation, is removed. *)
Lemma delete_unreferenced_hospital :
  fst (delete_hospital 2 after_first_allocation) = Returns tt
  /\ hospitals (session (snd (delete_hospital 2 after_first_allocation))) !! 2 = None
  /\ allocations (session (snd (delete_hospital 2 after_first_allocation)))
     = allocations (session after_first_allocation).
Proof. repeat split; reflexivity. Qed.

(** ** C6: quantities below zero *)

(** [set_stock] has no guard: any quantity an INT column can hold is
    stored as it is given. *)
Lemma set_stock_stores t n item_id qty :
  fits_int qty = true ->
  set_stock item_id qty (at_rest t n)
    = (Returns tt, at_rest (with_items t (alter (set_qty qty) item_id (items t))) n).
Proof.
  intros H. unfold set_stock, update_items_qty. run_db.
  destruct (items t !! item_id) eqn:Hr; run_db.
  - rewrite H. reflexivity.
  - rewrite alter_id' by exact Hr. rewrite with_items_same. reflexivity.
Qed.

(** C6 fails on the code: [set_stock] and [add_item] store a quantity
    below zero as it is given, so a state in which an item has quantity
    -5 is reached from one in which every quantity is at least zero. *)
Theorem set_stock_accepts_negative :
  stock_nonneg (session stocked)
  /\ fst (set_stock 1 (-5) stocked) = Returns tt
  /\ stock (snd (set_stock 1 (-5) stocked)) 1 = Some (-5)
  /\ ~ stock_nonneg (session (run [SetStock 1 (-5)] stocked))
  /\ fst (add_item "Generic" "Balloon" None None None (Some (-3)) stocked) = Returns tt
  /\ stock (snd (add_item "Generic" "Balloon" None None None (Some (-3)) stocked)) 2
     = Some (-3).
Proof.
  split; [|split; [reflexivity|split; [reflexivity|split; [|split; reflexivity]]]].
  - unfold stock_nonneg. apply map_Forall_to_list.
    change (map_to_list (items (session stocked))) with [(1, stent_a)].
    repeat constructor. simpl. lia.
  - intros H. specialize (H 1 (set_qty (-5) stent_a) eq_refl). simpl in H. lia.
Qed.

(** ** C5: allocations never exceed the stock *)

Lemma float_to_int_nonneg x : (0 <= x)%Q -> float_to_int x = Qfloor x.
Proof.
  intros H. unfold float_to_int.
  apply Qle_bool_iff in H. rewrite H. reflexivity.
Qed.

Lemma Qfloor_nonneg x : (0 <= x)%Q -> 0 <= Qfloor x.
Proof. intros H. apply (Qfloor_resp_le 0 x) in H. exact H. Qed.

(** What a call that passes both checks takes and records: neither is
    negative, and together they are no more than was there. *)
Lemma take_bounds q qty :
  num_le qty 0 = false ->
  num_gt qty q = false ->
  0 <= int_minus q qty
  /\ 0 <= as_int qty
  /\ (q < 2 ^ 53 -> int_minus q qty + as_int qty <= q).
Proof.
  destruct qty as [m|x]; simpl; intros H0 H1.
  - apply Z.leb_gt in H0. apply Z.ltb_ge in H1. lia.
  - apply negb_false_iff, Qle_bool_iff in H1.
    assert (0 < x)%Q as Hx.
    { apply Qnot_le_lt. intros Hle. apply Qle_bool_iff in Hle.
      change (inject_Z 0) with 0%Q in H0. congruence. }
    assert (0 <= inject_Z q - x)%Q as Hd by lra.
    pose proof (to_double_nonneg _ Hd) as Hr.
    rewrite (float_to_int_nonneg _ Hr).
    rewrite (float_to_int_nonneg x) by lra.
    assert (0 <= x)%Q as Hx' by lra.
    pose proof (Qfloor_nonneg _ Hx') as Hm.
    split; [apply Qfloor_nonneg, Hr|]. split; [exact Hm|].
    intros Hq.
    assert (to_double (inject_Z q - x) <= inject_Z (q - Qfloor x))%Q as Hle.
    { apply to_double_le_int; [exact Hd| |lia].
      pose proof (Qfloor_le x) as Hf.
      unfold Zminus. rewrite inject_Z_plus, inject_Z_opp. lra. }
    apply Qfloor_resp_le in Hle. rewrite Qfloor_Z in Hle. lia.
Qed.

Lemma allocated_total_app item_id l l' :
  allocated_total item_id (l ++ l')
    = allocated_total item_id l + allocated_total item_id l'.
Proof.
  induction l as [|a l IH]; simpl; [reflexivity|].
  fold (allocated_total item_id (l ++ l')). fold (allocated_total item_id l).
  rewrite IH. destruct (a_item_id a =? item_id); lia.
Qed.






(** A request that is not whole takes a whole number from the stock:
    with 1 left of 10, 1e-17 is asked for and granted, the stock is still
    1 (the double nearest to 1 - 1e-17 is 1) and the row records 0, so
    that the 1 can be allocated afterwards: all three calls return,
    nothing is left and the rows record 10. *)
Lemma tiny_request_takes_nothing :
  int_minus 1 (PyFloat (1 # 100000000000000000)%Q) = 1
  /\ as_int (PyFloat (1 # 100000000000000000)%Q) = 0
  /\ stock (fst (run_allocations 1 tiny_calls stocked)) 1 = Some 0
  /\ length (snd (run_allocations 1 tiny_calls stocked)) = 3%nat
  /\ allocated_total 1 (allocations (session (fst (run_allocations 1 tiny_calls stocked))))
     = 10.
Proof. repeat split; vm_compute; reflexivity. Qed.

(** ** C7: the report *)

#[local] Instance ts_le_total : Total ts_le.
Proof. intros x y. unfold ts_le. lia. Qed.

Lemma join_allocation_Some t a j :
  join_allocation t a = Some j -> j_a j = a /\ j_h_id j = a_hospital_id a.
Proof.
  unfold join_allocation.
  destruct (hospitals t !! a_hospital_id a); [|discriminate].
  destruct (items t !! a_item_id a); [|discriminate].
  intros [= <-]. split; reflexivity.
Qed.

(** Filtering the joined rows by a clause is filtering the allocations by
    what the clause says of them. *)
Lemma filter_join t (cl : joined_row -> bool) (m : allocation_row -> bool) l :
  (forall a j, join_allocation t a = Some j -> cl j = m a) ->
  select_list <$> List.filter cl (omap (join_allocation t) l)
    = omap (report_of t) (List.filter m l).
Proof.
  intros Hcl. induction l as [|a l IH]; simpl; [reflexivity|].
  destruct (join_allocation t a) as [j|] eqn:Hj; simpl.
  - rewrite (Hcl a j Hj).
    destruct (m a); simpl; [|exact IH].
    unfold report_of at 1. rewrite Hj; simpl. f_equal. exact IH.
  - destruct (m a); simpl; [|exact IH].
    unfold report_of at 1. rewrite Hj; simpl. exact IH.
Qed.

Lemma omap_length_total {A B} (f : A -> option B) l :
  Forall (fun a => is_Some (f a)) l -> length (omap f l) = length l.
Proof.
  induction 1 as [|a l [b Hb] _ IH]; simpl; [reflexivity|].
  rewrite Hb; simpl. f_equal. exact IH.
Qed.

Lemma Forall_filter_intro {A} (P : A -> Prop) (f : A -> bool) l :
  Forall P l -> Forall P (List.filter f l).
Proof.
  induction 1 as [|a l Ha _ IH]; simpl; [constructor|].
  destruct (f a); [constructor; assumption | exact IH].
Qed.

Lemma filter_none {A} (f : A -> bool) l :
  Forall (fun a => f a = false) l -> List.filter f l = [].
Proof. induction 1 as [|a l Ha _ IH]; simpl; [reflexivity|]. rewrite Ha. exact IH. Qed.

Lemma referential_report t a :
  is_Some (hospitals t !! a_hospital_id a) /\ is_Some (items t !! a_item_id a) ->
  is_Some (report_of t a).
Proof.
  intros [[h Hh] [i Hi]]. unfold report_of, join_allocation.
  rewrite Hh, Hi. eexists; reflexivity.
Qed.

(** C7, amended: for every state of the tables, every hospital filter
    that is absent or an id other than 0, and every pair of optional
    bounds, the report returns (it does not raise and changes nothing)
    rows in ascending order of timestamp that are, up to order, the
    report rows of the allocations passing every supplied filter, the
    date bounds included; when every allocation refers to an existing
    hospital and item there is one row per such allocation; and when no
    allocation passes, the result is empty. *)
Theorem report_is_filtered_and_sorted t n hospital_id date_from date_to :
  hospital_id <> Some 0 ->
  exists rows,
    fetch_allocations_for_report hospital_id date_from date_to (at_rest t n)
      = (Returns rows, at_rest t n)
    /\ Sorted chronological rows
    /\ rows ≡ₚ omap (report_of t)
                 (List.filter (matches hospital_id date_from date_to) (allocations t))
    /\ (referential t ->
        length rows
          = length (List.filter (matches hospital_id date_from date_to) (allocations t)))
    /\ (Forall (fun a => matches hospital_id date_from date_to a = false) (allocations t) ->
        rows = []).
Proof.
  intros Hh.
  assert (int_given hospital_id = hospital_id) as Hg
    by (destruct hospital_id as [[| |]|]; [congruence|reflexivity..]).
  unfold fetch_allocations_for_report, read, date_given. rewrite Hg. simpl.
  eexists. split; [reflexivity|].
  set (cl := fun j : joined_row => forallb (fun c => c j) _).
  assert (select_list <$> List.filter cl (from_join t)
          = omap (report_of t)
              (List.filter (matches hospital_id date_from date_to) (allocations t)))
    as Hrows.
  { apply filter_join. intros a j Hj.
    destruct (join_allocation_Some t a j Hj) as [Ha Hid].
    unfold cl, matches.
    destruct hospital_id as [h|], date_from as [d1|], date_to as [d2|]; simpl;
      rewrite ?Ha, ?Hid, ?andb_true_r, ?andb_assoc; reflexivity. }
  assert (select_list <$> merge_sort ts_le (List.filter cl (from_join t))
          ≡ₚ omap (report_of t)
               (List.filter (matches hospital_id date_from date_to) (allocations t)))
    as Hperm.
  { rewrite <- Hrows. apply fmap_Permutation, merge_sort_Permutation. }
  split; [|split; [exact Hperm|split]].
  - apply (Sorted_fmap _ ts_le); [intros x y H; exact H|].
    apply Sorted_merge_sort, _.
  - intros Href. rewrite (Permutation_length Hperm).
    apply omap_length_total, Forall_filter_intro.
    eapply Forall_impl; [exact Href|]. intros a. apply referential_report.
  - intros Hnone. rewrite (filter_none _ _ Hnone) in Hperm.
    apply Permutation_nil_r in Hperm. exact Hperm.
Qed.

(** Hospital 2 from 1001 on: one of the three allocations; and nothing
    after 5000. *)
Lemma report_is_filtered_and_sorted_witness :
  (exists rows,
     fetch_allocations_for_report (Some 2) (Some 1001) None busy = (Returns rows, busy)
     /\ Sorted chronological rows
     /\ rows ≡ₚ omap (report_of (session busy))
                  (List.filter (matches (Some 2) (Some 1001) None)
                     (allocations (session busy)))
     /\ length rows = 1%nat)
  /\ fetch_allocations_for_report None (Some 5000) None busy = (Returns [], busy).
Proof.
  split.
  - destruct (report_is_filtered_and_sorted (session busy) (identity busy)
                (Some 2) (Some 1001) None) as (rows & Hf & Hs & Hp & Hl & _);
      [discriminate|].
    exists rows. split; [exact Hf|]. split; [exact Hs|]. split; [exact Hp|].
    rewrite Hl; [reflexivity|].
    repeat constructor; eexists; reflexivity.
  - destruct (report_is_filtered_and_sorted (session busy) (identity busy)
                None (Some 5000) None) as (rows & Hf & _ & _ & _ & He);
      [discriminate|].
    rewrite <- (He ltac:(repeat constructor)) at 1. exact Hf.
Defined.

(** C7 as stated fails for the hospital filter 0: no allocation is for
    hospital 0, yet the report returns all three. *)
Lemma report_ignores_hospital_zero :
  List.filter (matches (Some 0) None None) (allocations (session busy)) = []
  /\ fst (fetch_allocations_for_report (Some 0) None None busy)
     = fst (fetch_allocations_for_report None None None busy)
  /\ fst (fetch_allocations_for_report (Some 0) None None busy)
     = Returns
         [Report 1 "Day hospital" "Stent" "Stent A" (Some (3 # 1)%Q) (Some 18) 4
            (Some (100 # 1)%Q) 1000;
          Report 2 "Bahman hospital" "Stent" "Stent A" (Some (3 # 1)%Q) (Some 18) 2
            (Some (100 # 1)%Q) 1002;
          Report 3 "Saman hospital" "Stent" "Stent A" (Some (3 # 1)%Q) (Some 18) 2
            (Some (90 # 1)%Q) 1003].
Proof. repeat split; reflexivity. Qed.

(** ** The methods, branch by branch *)

Lemma insert_hospital_run name c :
  insert_hospital name c =
  if bool_decide (map_Exists (fun _ n => n = name) (hospitals (session c)))
  then (Raises unique_name,
        Connection (committed c) (session c) (bump_hospital (identity c)))
  else if fits_width 200 name
  then (Returns tt,
        Connection (committed c)
          (with_hospitals (session c)
             (<[next_hospital (identity c) := name]> (hospitals (session c))))
          (bump_hospital (identity c)))
  else (Raises truncation,
        Connection (committed c) (session c) (bump_hospital (identity c))).
Proof.
  unfold insert_hospital. run_db.
  destruct (bool_decide _); [reflexivity|].
  destruct (fits_width 200 name); reflexivity.
Qed.

Lemma name_taken (h : gmap Z string) name :
  bool_decide (map_Exists (fun _ n => n = name) h) = true
  <-> exists k, h !! k = Some name.
Proof.
  rewrite bool_decide_eq_true, map_Exists_lookup. split.
  - intros (k & v & Hk & ->). eauto.
  - intros (k & Hk). eauto.
Qed.

Lemma name_free (h : gmap Z string) name :
  (forall k, h !! k <> Some name) ->
  bool_decide (map_Exists (fun _ n => n = name) h) = false.
Proof.
  intros H. apply not_true_is_false. rewrite name_taken.
  intros [k Hk]. exact (H k Hk).
Qed.

Section Methods.

Variables (t : tables) (n : identities).

Lemma add_hospital_at_rest name :
  add_hospital name (at_rest t n) =
  if bool_decide (map_Exists (fun _ n0 => n0 = name) (hospitals t))
  then (Raises unique_name, at_rest t (bump_hospital n))
  else if fits_width 200 name
  then (Returns tt,
        at_rest (with_hospitals t (<[next_hospital n := name]> (hospitals t)))
          (bump_hospital n))
  else (Raises truncation, at_rest t (bump_hospital n)).
Proof.
  unfold add_hospital, bind. rewrite insert_hospital_run. simpl.
  destruct (bool_decide _); [reflexivity|].
  destruct (fits_width 200 name); reflexivity.
Qed.

Lemma delete_hospital_at_rest hid :
  delete_hospital hid (at_rest t n) =
  if bool_decide (is_Some (hospitals t !! hid))
     && existsb (fun a => a_hospital_id a =? hid) (allocations t)
  then (Raises hospital_fk, at_rest t n)
  else (Returns tt, at_rest (with_hospitals t (delete hid (hospitals t))) n).
Proof.
  unfold delete_hospital, delete_from_hospitals. run_db.
  destruct (_ && _); reflexivity.
Qed.

Lemma delete_item_at_rest item_id :
  delete_item item_id (at_rest t n) =
  if bool_decide (is_Some (items t !! item_id))
     && existsb (fun a => a_item_id a =? item_id) (allocations t)
  then (Raises item_fk, at_rest t n)
  else (Returns tt, at_rest (with_items t (delete item_id (items t))) n).
Proof.
  unfold delete_item, delete_from_items. run_db.
  destruct (_ && _); reflexivity.
Qed.

Lemma add_item_at_rest item_type name diameter length price qty :
  add_item item_type name diameter length price qty (at_rest t n) =
  if fits_width 50 item_type && fits_width 200 name
  then
    if fits_opt length && fits_int (or_zero qty)
    then (Returns tt,
          at_rest
            (with_items t
               (<[next_item n := Item item_type name diameter length price (or_zero qty)]>
                  (items t)))
            (bump_item n))
    else (Raises overflow, at_rest t (bump_item n))
  else (Raises truncation, at_rest t (bump_item n)).
Proof.
  unfold add_item, insert_item. run_db.
  destruct (fits_width 50 item_type); simpl; [|reflexivity].
  destruct (fits_width 200 name); simpl; [|reflexivity].
  destruct length as [l|]; simpl; [destruct (fits_int l); simpl|];
    try reflexivity; destruct (fits_int (or_zero qty)); reflexivity.
Qed.

Lemma update_item_at_rest item_id name diameter length price :
  update_item item_id name diameter length price (at_rest t n) =
  match items t !! item_id with
  | None => (Returns tt, at_rest t n)
  | Some _ =>
    if fits_width 200 name
    then
      if fits_opt length
      then (Returns tt,
            at_rest
              (with_items t
                 (alter (set_details name diameter length price) item_id (items t))) n)
      else (Raises overflow, at_rest t n)
    else (Raises truncation, at_rest t n)
  end.
Proof.
  unfold update_item, update_items_details. run_db.
  destruct (items t !! item_id); run_db; [|reflexivity].
  destruct (fits_width 200 name); simpl; [|reflexivity].
  destruct length as [l|]; simpl; [destruct (fits_int l)|]; reflexivity.
Qed.

Lemma set_stock_at_rest item_id qty :
  set_stock item_id qty (at_rest t n) =
  match items t !! item_id with
  | None => (Returns tt, at_rest t n)
  | Some _ =>
    if fits_int qty
    then (Returns tt, at_rest (with_items t (alter (set_qty qty) item_id (items t))) n)
    else (Raises overflow, at_rest t n)
  end.
Proof.
  unfold set_stock, update_items_qty. run_db.
  destruct (items t !! item_id); run_db; [|reflexivity].
  destruct (fits_int qty); reflexivity.
Qed.

End Methods.

(** ** What every operation preserves *)

Lemma referential_hospitals t h :
  referential t ->
  (forall id, is_Some (hospitals t !! id) ->
     (exists a, a ∈ allocations t /\ a_hospital_id a = id) -> is_Some (h !! id)) ->
  referential (with_hospitals t h).
Proof.
  unfold referential. rewrite !Forall_forall. intros Href Hh a Ha.
  destruct (Href a Ha) as [H1 H2]. split; [|exact H2].
  simpl. apply Hh; [exact H1|]. exists a. auto.
Qed.

Lemma referential_items t i :
  referential t ->
  (forall id, is_Some (items t !! id) ->
     (exists a, a ∈ allocations t /\ a_item_id a = id) -> is_Some (i !! id)) ->
  referential (with_items t i).
Proof.
  unfold referential. rewrite !Forall_forall. intros Href Hi a Ha.
  destruct (Href a Ha) as [H1 H2]. split; [exact H1|].
  simpl. apply Hi; [exact H2|]. exists a. auto.
Qed.

Lemma existsb_false_elem {A} (f : A -> bool) l a :
  existsb f l = false -> a ∈ l -> f a = false.
Proof.
  induction l as [|b l IH]; simpl; intros H Ha.
  - inversion Ha.
  - apply orb_false_iff in H as [Hb Hl].
    apply elem_of_cons in Ha as [->|Ha]; [exact Hb | exact (IH Hl Ha)].
Qed.

Lemma delete_unreferenced {V} (m : gmap Z V) (f : allocation_row -> Z) l id :
  bool_decide (is_Some (m !! id)) && existsb (fun a => f a =? id) l = false ->
  forall k, is_Some (m !! k) -> (exists a, a ∈ l /\ f a = k) ->
            is_Some (delete id m !! k).
Proof.
  intros Hc k Hk (a & Ha & Hf).
  destruct (decide (k = id)) as [->|Hne]; [|rewrite lookup_delete_ne; auto].
  exfalso. rewrite bool_decide_eq_true_2 in Hc by exact Hk. simpl in Hc.
  pose proof (existsb_false_elem _ _ _ Hc Ha) as H. simpl in H.
  apply Z.eqb_neq in H. contradiction.
Qed.

Lemma stock_nonneg_alter t f id :
  stock_nonneg t ->
  (forall r, items t !! id = Some r -> 0 <= i_qty r -> 0 <= i_qty (f r)) ->
  stock_nonneg (with_items t (alter f id (items t))).
Proof.
  unfold stock_nonneg. intros Hn Hf k r. simpl.
  destruct (decide (id = k)) as [->|Hne].
  - rewrite lookup_alter_eq.
    destruct (items t !! k) as [r0|] eqn:Hr; [|discriminate].
    intros [= <-]. apply (Hf r0); [reflexivity|]. exact (Hn k r0 Hr).
  - rewrite lookup_alter_ne by exact Hne. apply Hn.
Qed.

(** From a connection at rest every operation leaves a connection at
    rest; referential integrity is kept; and quantities stay at or above
    zero unless the operation itself passes a negative one. *)
Lemma perform_preserves o t n :
  referential t ->
  exists t' n',
    snd (perform o (at_rest t n)) = at_rest t' n'
    /\ referential t'
    /\ (stock_nonneg t -> passes_nonneg o -> stock_nonneg t').
Proof.
  intros Href. destruct o; simpl.
  - (* add_hospital *)
    rewrite add_hospital_at_rest.
    destruct (bool_decide _); [eauto 6|].
    destruct (fits_width 200 name); [|eauto 6].
    eexists _, _. split; [reflexivity|]. split; [|auto].
    apply referential_hospitals; [exact Href|].
    intros id Hid _. rewrite lookup_insert_is_Some.
    destruct (decide (next_hospital n = id)); auto.
  - (* delete_hospital *)
    rewrite delete_hospital_at_rest.
    destruct (bool_decide (is_Some (hospitals t !! hid))
              && existsb (fun a => a_hospital_id a =? hid) (allocations t)) eqn:Hc;
      [eauto 6|].
    eexists _, _. split; [reflexivity|]. split; [|auto].
    apply referential_hospitals; [exact Href|].
    apply (delete_unreferenced _ a_hospital_id _ _ Hc).
  - (* add_item *)
    rewrite add_item_at_rest.
    destruct (fits_width 50 item_type && fits_width 200 name); [|eauto 6].
    destruct (fits_opt length && fits_int (or_zero qty)); [|eauto 6].
    eexists _, _. split; [reflexivity|]. split.
    + apply referential_items; [exact Href|].
      intros id Hid _. rewrite lookup_insert_is_Some.
      destruct (decide (next_item n = id)); auto.
    + intros Hn Hq. unfold stock_nonneg. simpl.
      apply map_Forall_insert_2; [exact Hq | exact Hn].
  - (* update_item *)
    rewrite update_item_at_rest.
    destruct (items t !! item_id); [|eauto 6].
    destruct (fits_width 200 name); [|eauto 6].
    destruct (fits_opt length); [|eauto 6].
    eexists _, _. split; [reflexivity|]. split.
    + apply referential_items; [exact Href|].
      intros id Hid _. apply lookup_alter_is_Some. exact Hid.
    + intros Hn _. apply stock_nonneg_alter; [exact Hn|]. auto.
  - (* set_stock *)
    rewrite set_stock_at_rest.
    destruct (items t !! item_id); [|eauto 6].
    destruct (fits_int qty); [|eauto 6].
    eexists _, _. split; [reflexivity|]. split.
    + apply referential_items; [exact Href|].
      intros id Hid _. apply lookup_alter_is_Some. exact Hid.
    + intros Hn Hq. apply stock_nonneg_alter; [exact Hn|]. auto.
  - (* delete_item *)
    rewrite delete_item_at_rest.
    destruct (bool_decide (is_Some (items t !! item_id))
              && existsb (fun a => a_item_id a =? item_id) (allocations t)) eqn:Hc;
      [eauto 6|].
    eexists _, _. split; [reflexivity|]. split.
    + apply referential_items; [exact Href|].
      apply (delete_unreferenced _ a_item_id _ _ Hc).
    + intros Hn _. unfold stock_nonneg; simpl. apply map_Forall_delete. exact Hn.
  - (* allocate *)
    rewrite allocate_at_rest.
    destruct (items t !! item_id) as [r|] eqn:Hr; [|eauto 6].
    destruct (num_le qty 0) eqn:H0; [eauto 6|].
    destruct (num_gt qty (i_qty r)) eqn:H1; [eauto 6|].
    destruct (fits_int hospital_id); [|eauto 6].
    destruct (hospitals t !! hospital_id) as [h|] eqn:Hh; [|eauto 6].
    eexists _, _. split; [reflexivity|]. split.
    + unfold referential, allocated; simpl. apply Forall_app. split.
      * eapply Forall_impl; [exact Href|]. intros a [Ha Hi]. split; [exact Ha|].
        simpl. rewrite lookup_insert_is_Some.
        destruct (decide (item_id = a_item_id a)); auto.
      * repeat constructor; simpl; [rewrite Hh; eauto|].
        rewrite lookup_insert_eq. eauto.
    + intros Hn _. unfold stock_nonneg, allocated; simpl.
      apply map_Forall_insert_2; [|exact Hn]. simpl.
      apply (take_bounds _ _ H0 H1).
Qed.

Lemma run_preserves ops :
  forall t n,
    referential t ->
    exists t' n',
      run ops (at_rest t n) = at_rest t' n'
      /\ referential t'
      /\ (stock_nonneg t -> Forall passes_nonneg ops -> stock_nonneg t').
Proof.
  induction ops as [|o ops IH]; intros t n Href; simpl.
  - eauto 6.
  - destruct (perform_preserves o t n Href) as (t1 & n1 & -> & Href1 & Hn1).
    destruct (IH t1 n1 Href1) as (t2 & n2 & Hrun & Href2 & Hn2).
    exists t2, n2. split; [exact Hrun|]. split; [exact Href2|].
    intros Hn Hall. inversion Hall; subst. auto.
Qed.

(** X16: whatever the user does after the first run, the connection is at
    rest between two operations and every allocation refers to a hospital
    and an item that exist; and no quantity is below zero as long as no
    operation passes one. *)
Lemma every_run_at_rest ops :
  exists t n,
    run ops first_run = at_rest t n
    /\ referential t
    /\ (Forall passes_nonneg ops -> stock_nonneg t).
Proof.
  destruct (run_preserves ops (session first_run) (identity first_run))
    as (t & n & Hrun & Href & Hn); [constructor|].
  exists t, n. split; [exact Hrun|]. split; [exact Href|].
  apply Hn. unfold stock_nonneg. change (items (session first_run)) with (∅ : gmap Z item_row).
  apply map_Forall_empty.
Qed.

(** * More of the code *)

(** ** Seeding the hospitals *)

(** The loop over names that fit the column never raises, commits
    nothing, touches only [hospitals], and does not leave it empty. *)
Lemma insert_defaults_run names :
  Forall (fun name => fits_width 200 name = true) names ->
  forall c,
    exists h' n',
      insert_defaults names c
        = (Returns tt, Connection (committed c) (with_hospitals (session c) h') n')
      /\ (hospitals (session c) <> ∅ -> h' <> ∅)
      /\ (names <> [] -> h' <> ∅).
Proof.
  induction 1 as [|name rest Hfit _ IH]; intros c; simpl.
  - exists (hospitals (session c)), (identity c).
    destruct c as [cm [h i a] n]; simpl. split; [reflexivity|]. split; [auto|congruence].
  - unfold bind, try_except. rewrite insert_hospital_run, Hfit.
    destruct (bool_decide _) eqn:Htaken; simpl.
    + destruct (IH (Connection (committed c) (session c) (bump_hospital (identity c))))
        as (h' & n' & -> & Hne & _).
      exists h', n'. simpl in *. split; [reflexivity|]. split; [exact Hne|].
      intros _. apply Hne. apply name_taken in Htaken as [k Hk].
      intros Hempty. rewrite Hempty, lookup_empty in Hk. discriminate.
    + destruct (IH (Connection (committed c)
                      (with_hospitals (session c)
                         (<[next_hospital (identity c) := name]> (hospitals (session c))))
                      (bump_hospital (identity c))))
        as (h' & n' & -> & Hne & _).
      exists h', n'. simpl in *.
      assert (h' <> ∅) as Hh' by (apply Hne, insert_non_empty).
      split; [reflexivity|]. split; intros _; exact Hh'.
Qed.

Lemma default_hospitals_fit :
  Forall (fun name => fits_width 200 name = true) default_hospitals.
Proof. repeat constructor. Qed.

Lemma ensure_schema_kept t n :
  hospitals t <> ∅ -> ensure_schema (at_rest t n) = (Returns tt, at_rest t n).
Proof.
  intros Hne. unfold ensure_schema. run_db.
  rewrite bool_decide_eq_false_2; [reflexivity|].
  intros Hsize. apply Hne, map_size_empty_iff, Hsize.
Qed.

Lemma ensure_schema_run t n :
  exists t' n',
    ensure_schema (at_rest t n) = (Returns tt, at_rest t' n')
    /\ hospitals t' <> ∅
    /\ items t' = items t
    /\ allocations t' = allocations t
    /\ (hospitals t <> ∅ -> t' = t /\ n' = n).
Proof.
  destruct (decide (hospitals t = ∅)) as [Hempty|Hne].
  - unfold ensure_schema.
    remember (insert_defaults default_hospitals) as seed eqn:Hseed. run_db.
    rewrite bool_decide_eq_true_2 by (apply map_size_empty_iff, Hempty).
    destruct (insert_defaults_run default_hospitals default_hospitals_fit
                (Connection t t n))
      as (h' & n' & Hrun & _ & Hh'). subst seed. rewrite Hrun. simpl.
    exists (with_hospitals t h'), n'. split; [reflexivity|].
    split; [apply Hh'; discriminate|]. split; [reflexivity|]. split; [reflexivity|].
    intros Hne. contradiction.
  - exists t, n. rewrite (ensure_schema_kept t n Hne). repeat split; auto.
Qed.

(** X1: [ensure_schema] never raises, ends with everything committed,
    leaves items and allocations alone, and a second run changes nothing
    at all, identity counters included. *)
Theorem ensure_schema_idempotent t n :
  fst (ensure_schema (at_rest t n)) = Returns tt
  /\ committed (snd (ensure_schema (at_rest t n)))
     = session (snd (ensure_schema (at_rest t n)))
  /\ items (session (snd (ensure_schema (at_rest t n)))) = items t
  /\ allocations (session (snd (ensure_schema (at_rest t n)))) = allocations t
  /\ ensure_schema (snd (ensure_schema (at_rest t n)))
     = (Returns tt, snd (ensure_schema (at_rest t n))).
Proof.
  destruct (ensure_schema_run t n) as (t' & n' & -> & Hne & Hi & Ha & _). simpl.
  split; [reflexivity|]. split; [reflexivity|]. split; [exact Hi|]. split; [exact Ha|].
  apply ensure_schema_kept, Hne.
Qed.

Ltac seed_step Hempty :=
  rewrite insert_hospital_run; simpl hospitals; simpl session; rewrite ?Hempty;
  rewrite name_free
    by (let k := fresh "k" in let H := fresh "H" in
        simpl; intros k H;
        repeat (apply lookup_insert_Some in H as [[_ H]|[_ H]]; [discriminate H|]);
        rewrite lookup_empty in H; discriminate H);
  simpl.

Lemma seeded_inserts k :
  <[k + 1 + 1 + 1 + 1 + 1 := "Baghiatolah hospital"]>
    (<[k + 1 + 1 + 1 + 1 := "Pars hospital"]>
       (<[k + 1 + 1 + 1 := "Kasra hospital"]>
          (<[k + 1 + 1 := "Saman hospital"]>
             (<[k + 1 := "Bahman hospital"]>
                (<[k := "Day hospital"]> (∅ : gmap Z string))))))
  = seeded k.
Proof.
  unfold seeded. simpl. apply map_eq. intros i.
  repeat (rewrite lookup_insert; case_decide); try reflexivity; lia.
Qed.

(** X2: when [hospitals] is empty, on the first run or after every
    hospital was deleted, [ensure_schema] inserts the six default names
    under the next six identity values, in the order of the list, and
    commits; nothing else changes. *)
Theorem ensure_schema_seeds t n :
  hospitals t = ∅ ->
  ensure_schema (at_rest t n)
    = (Returns tt,
       at_rest (with_hospitals t (seeded (next_hospital n)))
         (Identities (next_hospital n + 6) (next_item n) (next_allocation n))).
Proof.
  intros Hempty. unfold ensure_schema. run_db.
  rewrite bool_decide_eq_true_2 by (apply map_size_empty_iff, Hempty).
  unfold bind, try_except.
  do 6 (seed_step Hempty). unfold ret, with_hospitals, bump_hospital; simpl.
  rewrite seeded_inserts. do 2 f_equal. f_equal. lia.
Qed.

Lemma ensure_schema_seeds_witness :
  first_run = at_rest (with_hospitals empty_tables (seeded 1)) (Identities 7 1 1)
  /\ hospitals (session first_run) !! 3 = Some "Saman hospital"
  /\ snd (ensure_schema (snd (delete_hospital 2 first_run))) = snd (delete_hospital 2 first_run).
Proof.
  pose proof (ensure_schema_seeds empty_tables (Identities 1 1 1) eq_refl) as H.
  split; [|split; reflexivity].
  transitivity (snd (ensure_schema (at_rest empty_tables (Identities 1 1 1)))).
  - reflexivity.
  - rewrite H. reflexivity.
Defined.


(** ** Keys and names in every reachable state *)

Lemma well_keyed_mono t n n' :
  next_hospital n <= next_hospital n' ->
  next_item n <= next_item n' ->
  next_allocation n <= next_allocation n' ->
  well_keyed t n -> well_keyed t n'.
Proof.
  intros Hh Hi Ha (K1 & Kh & Ki & Ka & Ks & Ku).
  split; [|split; [|split; [|split; [|split]]]]; try assumption.
  - lia.
  - intros k Hk. specialize (Kh k Hk). lia.
  - intros k Hk. specialize (Ki k Hk). lia.
  - eapply Forall_impl; [exact Ka|]. simpl. intros a ?. lia.
Qed.

Lemma well_keyed_hospitals t n h :
  (forall k v, h !! k = Some v -> hospitals t !! k = Some v) ->
  well_keyed t n -> well_keyed (with_hospitals t h) n.
Proof.
  intros Hsub (K1 & Kh & Ki & Ka & Ks & Ku).
  split; [|split; [|split; [|split; [|split]]]]; try assumption; simpl.
  - intros k [v Hk]. apply Kh. rewrite (Hsub k v Hk). eauto.
  - intros k1 k2 name H1 H2. apply (Ku k1 k2 name); apply Hsub; assumption.
Qed.

Lemma well_keyed_items t n i :
  (forall k, is_Some (i !! k) -> is_Some (items t !! k)) ->
  well_keyed t n -> well_keyed (with_items t i) n.
Proof.
  intros Hsub (K1 & Kh & Ki & Ka & Ks & Ku).
  split; [|split; [|split; [|split; [|split]]]]; try assumption; simpl.
  intros k Hk. apply Ki, Hsub, Hk.
Qed.

Lemma well_keyed_add_hospital t n name :
  (forall k, hospitals t !! k <> Some name) ->
  well_keyed t n ->
  well_keyed (with_hospitals t (<[next_hospital n := name]> (hospitals t)))
    (bump_hospital n).
Proof.
  intros Hfree (K1 & Kh & Ki & Ka & Ks & Ku).
  split; [|split; [|split; [|split; [|split]]]]; simpl; try assumption.
  - lia.
  - intros k Hsome. apply lookup_insert_is_Some in Hsome as [<-|[_ Hsome]]; [lia|].
    specialize (Kh k Hsome). lia.
  - intros k1 k2 nm H1 H2.
    apply lookup_insert_Some in H1 as [[<- <-]|[Hne1 H1]];
      apply lookup_insert_Some in H2 as [[<- Heq]|[Hne2 H2]];
      try reflexivity; try (subst; exfalso; eapply Hfree; eassumption).
    exact (Ku k1 k2 nm H1 H2).
Qed.

Lemma well_keyed_add_item t n r :
  well_keyed t n ->
  well_keyed (with_items t (<[next_item n := r]> (items t))) (bump_item n).
Proof.
  intros (K1 & Kh & Ki & Ka & Ks & Ku).
  split; [|split; [|split; [|split; [|split]]]]; simpl; try assumption.
  - lia.
  - intros k Hsome. apply lookup_insert_is_Some in Hsome as [<-|[_ Hsome]]; [lia|].
    specialize (Ki k Hsome). lia.
Qed.

Lemma well_keyed_allocated t n item_id hospital_id r qty override now :
  items t !! item_id = Some r ->
  well_keyed t n ->
  well_keyed (allocated t n item_id hospital_id r qty override now) (bump_allocation n).
Proof.
  intros Hr (K1 & Kh & Ki & Ka & Ks & Ku).
  split; [|split; [|split; [|split; [|split]]]]; simpl; try assumption.
  - lia.
  - intros k Hsome. apply Ki.
    apply lookup_insert_is_Some in Hsome as [<-|[_ Hsome]]; [eauto|exact Hsome].
  - apply Forall_app. split.
    + eapply Forall_impl; [exact Ka|]. simpl. intros a ?. lia.
    + repeat constructor; simpl; lia.
  - rewrite fmap_app. apply StronglySorted_app_2.
    + intros x1 x2 H1 H2. simpl in H2. apply list_elem_of_singleton in H2 as ->.
      apply list_elem_of_fmap in H1 as (a & -> & Ha).
      rewrite Forall_forall in Ka. specialize (Ka a Ha). simpl in Ka. lia.
    + exact Ks.
    + repeat constructor.
Qed.

(** From a connection at rest with well-drawn keys, every operation
    leaves one, and the allocations it finds are still there, in place,
    with at most one more after them. *)
Lemma perform_well_keyed o t n :
  well_keyed t n ->
  exists t' n' rows,
    snd (perform o (at_rest t n)) = at_rest t' n'
    /\ well_keyed t' n'
    /\ allocations t' = allocations t ++ rows
    /\ (length rows <= 1)%nat.
Proof.
  intros Hk.
  assert (forall e n',
            next_hospital n <= next_hospital n' ->
            next_item n <= next_item n' ->
            next_allocation n <= next_allocation n' ->
            exists t' n'' rows,
              snd (Raises e : outcome unit, at_rest t n') = at_rest t' n''
              /\ well_keyed t' n''
              /\ allocations t' = allocations t ++ rows
              /\ (length rows <= 1)%nat) as Hfail.
  { intros e n' H1 H2 H3. exists t, n', []. split; [reflexivity|].
    split; [exact (well_keyed_mono t n n' H1 H2 H3 Hk)|].
    rewrite app_nil_r. auto. }
  assert (exists t' n'' rows,
            at_rest t n = at_rest t' n''
            /\ well_keyed t' n''
            /\ allocations t' = allocations t ++ rows
            /\ (length rows <= 1)%nat) as Hsame.
  { exists t, n, []. rewrite app_nil_r. auto. }
  destruct o; simpl.
  - (* add_hospital *)
    rewrite add_hospital_at_rest.
    destruct (bool_decide _) eqn:Htaken; [apply Hfail; simpl; lia|].
    destruct (fits_width 200 name); [|apply Hfail; simpl; lia].
    eexists _, _, []. split; [reflexivity|]. split; [|rewrite app_nil_r; auto].
    apply well_keyed_add_hospital; [|exact Hk].
    intros k Hname.
    assert (bool_decide (map_Exists (fun _ n0 => n0 = name) (hospitals t)) = true)
      as Ht by (apply name_taken; eauto).
    congruence.
  - (* delete_hospital *)
    rewrite delete_hospital_at_rest.
    destruct (_ && _); [apply Hfail; lia|].
    eexists _, _, []. split; [reflexivity|]. split; [|rewrite app_nil_r; auto].
    apply well_keyed_hospitals; [|exact Hk].
    intros k v Hv. apply lookup_delete_Some in Hv as [_ Hv]. exact Hv.
  - (* add_item *)
    rewrite add_item_at_rest.
    destruct (fits_width 50 item_type && fits_width 200 name);
      [|apply Hfail; simpl; lia].
    destruct (fits_opt length && fits_int (or_zero qty)); [|apply Hfail; simpl; lia].
    eexists _, _, []. split; [reflexivity|]. split; [|rewrite app_nil_r; auto].
    apply well_keyed_add_item, Hk.
  - (* update_item *)
    rewrite update_item_at_rest.
    destruct (items t !! item_id); [|exact Hsame].
    destruct (fits_width 200 name); [|apply Hfail; lia].
    destruct (fits_opt length); [|apply Hfail; lia].
    eexists _, _, []. split; [reflexivity|]. split; [|rewrite app_nil_r; auto].
    apply well_keyed_items; [|exact Hk].
    intros k Hsome. apply lookup_alter_is_Some in Hsome. exact Hsome.
  - (* set_stock *)
    rewrite set_stock_at_rest.
    destruct (items t !! item_id); [|exact Hsame].
    destruct (fits_int qty); [|apply Hfail; lia].
    eexists _, _, []. split; [reflexivity|]. split; [|rewrite app_nil_r; auto].
    apply well_keyed_items; [|exact Hk].
    intros k Hsome. apply lookup_alter_is_Some in Hsome. exact Hsome.
  - (* delete_item *)
    rewrite delete_item_at_rest.
    destruct (_ && _); [apply Hfail; lia|].
    eexists _, _, []. split; [reflexivity|]. split; [|rewrite app_nil_r; auto].
    apply well_keyed_items; [|exact Hk].
    intros k [v Hv]. apply lookup_delete_Some in Hv as [_ Hv]. eauto.
  - (* allocate *)
    rewrite allocate_at_rest.
    destruct (items t !! item_id) as [r|] eqn:Hr; [|apply Hfail; lia].
    destruct (num_le qty 0); [apply Hfail; lia|].
    destruct (num_gt qty (i_qty r)); [apply Hfail; lia|].
    destruct (fits_int hospital_id); [|apply Hfail; simpl; lia].
    destruct (hospitals t !! hospital_id); [|apply Hfail; simpl; lia].
    eexists _, _, [_]. split; [reflexivity|].
    split; [apply well_keyed_allocated; assumption|]. split; [reflexivity|]. simpl. lia.
Qed.

Lemma run_well_keyed ops :
  forall t n,
    well_keyed t n ->
    exists t' n' rows,
      run ops (at_rest t n) = at_rest t' n'
      /\ well_keyed t' n'
      /\ allocations t' = allocations t ++ rows
      /\ (length rows <= length ops)%nat.
Proof.
  induction ops as [|o ops IH]; intros t n Hk; simpl.
  - exists t, n, []. rewrite app_nil_r. auto.
  - destruct (perform_well_keyed o t n Hk) as (t1 & n1 & rows1 & -> & Hk1 & Ha1 & Hl1).
    destruct (IH t1 n1 Hk1) as (t2 & n2 & rows2 & Hrun & Hk2 & Ha2 & Hl2).
    exists t2, n2, (rows1 ++ rows2). split; [exact Hrun|]. split; [exact Hk2|].
    split; [rewrite Ha2, Ha1, app_assoc; reflexivity|].
    rewrite length_app. lia.
Qed.

Lemma seeded_lookup k i name :
  seeded k !! i = Some name ->
  exists j, default_hospitals !! j = Some name /\ i = k + Z.of_nat j.
Proof.
  unfold seeded. simpl. intros H.
  repeat (apply lookup_insert_Some in H as [[<- <-]|[_ H]];
          [first [exists 0%nat; split; [reflexivity|lia]
                 |exists 1%nat; split; [reflexivity|lia]
                 |exists 2%nat; split; [reflexivity|lia]
                 |exists 3%nat; split; [reflexivity|lia]
                 |exists 4%nat; split; [reflexivity|lia]
                 |exists 5%nat; split; [reflexivity|lia]]|]).
  rewrite lookup_empty in H. discriminate.
Qed.

Lemma first_run_well_keyed : well_keyed (session first_run) (identity first_run).
Proof.
  change first_run
    with (at_rest (with_hospitals empty_tables (seeded 1)) (Identities 7 1 1)).
  split; [simpl; lia|]. split; [|split; [|split; [|split]]]; simpl.
  - intros k [v Hv]. apply seeded_lookup in Hv as (j & Hj & ->).
    apply lookup_lt_Some in Hj. simpl in Hj. lia.
  - intros k [v Hv]. rewrite lookup_empty in Hv. discriminate.
  - constructor.
  - constructor.
  - intros k1 k2 name H1 H2.
    apply seeded_lookup in H1 as (j1 & Hj1 & ->).
    apply seeded_lookup in H2 as (j2 & Hj2 & ->).
    f_equal. f_equal.
    assert (NoDup default_hospitals) as Hnd
      by (apply (bool_decide_unpack _); vm_compute; exact I).
    exact (NoDup_lookup _ _ _ _ Hnd Hj1 Hj2).
Qed.

(** X3: whatever the user does after the first run, every hospital,
    item and allocation id is at least 1 and below the next identity
    value (so no id is 0 and none is handed out twice), the allocation
    ids increase in the order of insertion, and no two hospitals have the
    same name. *)
Theorem keys_and_names_stay_unique ops :
  exists t n,
    run ops first_run = at_rest t n
    /\ well_keyed t n
    /\ NoDup (a_id <$> allocations t)
    /\ NoDup (snd <$> map_to_list (hospitals t)).
Proof.
  destruct (run_well_keyed ops (session first_run) (identity first_run)
              first_run_well_keyed) as (t & n & rows & Hrun & Hk & _).
  exists t, n. split; [exact Hrun|]. split; [exact Hk|].
  destruct Hk as (_ & _ & _ & _ & Ks & Ku). split.
  - clear -Ks. induction Ks as [|x l _ IH Hx]; constructor; [|exact IH].
    intros Hin. rewrite Forall_forall in Hx. specialize (Hx x Hin). lia.
  - apply NoDup_fmap_2_strong; [|apply NoDup_map_to_list].
    intros [k1 v1] [k2 v2] H1 H2 Heq. simpl in Heq. subst v2.
    apply elem_of_map_to_list in H1, H2. f_equal. exact (Ku k1 k2 v1 H1 H2).
Qed.

(** ** The allocations are a log *)

Lemma perform_appends o t n :
  exists t' n' rows,
    perform o (at_rest t n) = (fst (perform o (at_rest t n)), at_rest t' n')
    /\ allocations t' = allocations t ++ rows
    /\ (length rows <= if is_allocate o then 1 else 0)%nat
    /\ (fst (perform o (at_rest t n)) <> Returns tt -> t' = t).
Proof.
  assert (forall (b : bool) (x : outcome unit) n',
            exists t' n'' rows,
              (x, at_rest t n') = (fst (x, at_rest t n'), at_rest t' n'')
              /\ allocations t' = allocations t ++ rows
              /\ (length rows <= if b then 1 else 0)%nat
              /\ (fst (x, at_rest t n') <> Returns tt -> t' = t)) as Hsame.
  { intros b x n'. exists t, n', []. rewrite app_nil_r.
    repeat split; auto. destruct b; simpl; lia. }
  destruct o; simpl.
  - rewrite add_hospital_at_rest. destruct (bool_decide _); [apply (Hsame false)|].
    destruct (fits_width 200 name); [|apply (Hsame false)].
    eexists _, _, []. rewrite app_nil_r. repeat split; auto; simpl; congruence.
  - rewrite delete_hospital_at_rest. destruct (_ && _); [apply (Hsame false)|].
    eexists _, _, []. rewrite app_nil_r. repeat split; auto; simpl; congruence.
  - rewrite add_item_at_rest.
    destruct (fits_width 50 item_type && fits_width 200 name); [|apply (Hsame false)].
    destruct (fits_opt length && fits_int (or_zero qty)); [|apply (Hsame false)].
    eexists _, _, []. rewrite app_nil_r. repeat split; auto; simpl; congruence.
  - rewrite update_item_at_rest. destruct (items t !! item_id); [|apply (Hsame false)].
    destruct (fits_width 200 name); [|apply (Hsame false)].
    destruct (fits_opt length); [|apply (Hsame false)].
    eexists _, _, []. rewrite app_nil_r. repeat split; auto; simpl; congruence.
  - rewrite set_stock_at_rest. destruct (items t !! item_id); [|apply (Hsame false)].
    destruct (fits_int qty); [|apply (Hsame false)].
    eexists _, _, []. rewrite app_nil_r. repeat split; auto; simpl; congruence.
  - rewrite delete_item_at_rest. destruct (_ && _); [apply (Hsame false)|].
    eexists _, _, []. rewrite app_nil_r. repeat split; auto; simpl; congruence.
  - rewrite allocate_at_rest.
    destruct (items t !! item_id) as [r|]; [|apply (Hsame true)].
    destruct (num_le qty 0); [apply (Hsame true)|].
    destruct (num_gt qty (i_qty r)); [apply (Hsame true)|].
    destruct (fits_int hospital_id); [|apply (Hsame true)].
    destruct (hospitals t !! hospital_id); [|apply (Hsame true)].
    eexists _, _, [_]. repeat split; simpl; auto; congruence.
Qed.

(** X4: the allocations are an append-only log. Whatever operations are
    run, failed ones included, the rows that were there are still there,
    unchanged and in place, at the head of the table; the rows after them
    are at most as many as the calls of [allocate]; and nothing is left
    uncommitted. *)
Theorem allocations_append_only ops :
  forall t n,
    exists t' n' rows,
      run ops (at_rest t n) = at_rest t' n'
      /\ allocations t' = allocations t ++ rows
      /\ (length rows <= length (List.filter is_allocate ops))%nat.
Proof.
  induction ops as [|o ops IH]; intros t n; simpl.
  - exists t, n, []. rewrite app_nil_r. auto.
  - destruct (perform_appends o t n) as (t1 & n1 & rows1 & Hp & Ha1 & Hl1 & _).
    rewrite Hp. simpl.
    destruct (IH t1 n1) as (t2 & n2 & rows2 & Hrun & Ha2 & Hl2).
    exists t2, n2, (rows1 ++ rows2). split; [exact Hrun|].
    split; [rewrite Ha2, Ha1, app_assoc; reflexivity|].
    rewrite length_app. destruct (is_allocate o); simpl; lia.
Qed.

(** ** An id that matches no row; editing an item *)

(** X5: [update_item], [set_stock], [delete_item] and [delete_hospital]
    called with an id that matches no row return normally and change
    nothing (the values passed fitting their columns): unlike
    [allocate], they do not report the missing row. *)
Theorem missing_id_is_silent t n id name diameter length price qty :
  (items t !! id = None ->
   fits_opt length = true ->
   update_item id name diameter length price (at_rest t n) = (Returns tt, at_rest t n))
  /\ (items t !! id = None ->
      fits_int qty = true ->
      set_stock id qty (at_rest t n) = (Returns tt, at_rest t n))
  /\ (items t !! id = None ->
      delete_item id (at_rest t n) = (Returns tt, at_rest t n))
  /\ (hospitals t !! id = None ->
      delete_hospital id (at_rest t n) = (Returns tt, at_rest t n)).
Proof.
  split; [|split; [|split]].
  - intros Hnone _. rewrite update_item_at_rest, Hnone. reflexivity.
  - intros Hnone _. rewrite set_stock_at_rest, Hnone. reflexivity.
  - intros Hnone. rewrite delete_item_at_rest.
    rewrite bool_decide_eq_false_2 by (rewrite Hnone; apply is_Some_None).
    simpl. rewrite delete_id by exact Hnone. rewrite with_items_same. reflexivity.
  - intros Hnone. rewrite delete_hospital_at_rest.
    rewrite bool_decide_eq_false_2 by (rewrite Hnone; apply is_Some_None).
    simpl. rewrite delete_id by exact Hnone. rewrite with_hospitals_same. reflexivity.
Qed.

Lemma missing_id_is_silent_witness :
  update_item 7 "Stent B" None None None stocked = (Returns tt, stocked)
  /\ set_stock 7 40 stocked = (Returns tt, stocked)
  /\ delete_item 7 stocked = (Returns tt, stocked)
  /\ delete_hospital 70 stocked = (Returns tt, stocked).
Proof.
  destruct (missing_id_is_silent (session stocked) (identity stocked) 7
              "Stent B" None None None 40) as (H1 & H2 & H3 & _).
  destruct (missing_id_is_silent (session stocked) (identity stocked) 70
              "" None None None 0) as (_ & _ & _ & H4).
  split; [|split; [|split]].
  - apply H1; reflexivity.
  - apply H2; reflexivity.
  - apply H3; reflexivity.
  - apply H4; reflexivity.
Defined.

(** X6: editing an existing item with values that fit their columns (a
    name of at most 200 characters, a length and a quantity that are
    INT) ends in "Item updated"; the item then has the name, diameter,
    length, price and quantity of the form and the type it had before
    (the type of the form is not used); no other item, no hospital and no
    allocation changes, and everything is committed. *)
Theorem edit_updates_all_but_type t n iid old r :
  items t !! iid = Some old ->
  fits_width 200 (f_name r) = true ->
  fits_opt (f_length r) = true ->
  fits_int (form_qty r (i_qty old)) = true ->
  edit_selected_item iid (Some r) (at_rest t n)
    = (Returns ItemUpdated,
       at_rest
         (with_items t
            (<[iid := Item (i_type old) (f_name r) (f_diameter r) (f_length r)
                        (f_price r) (form_qty r (i_qty old))]> (items t)))
         n).
Proof.
  intros Hold Hname Hlen Hqty. unfold edit_selected_item.
  unfold bind at 1. unfold read at 1. simpl. rewrite Hold.
  unfold try_except, bind. rewrite update_item_at_rest, Hold, Hname, Hlen.
  unfold form_qty in *. destruct (f_qty r) as [qty|]; simpl.
  - rewrite set_stock_at_rest. simpl. rewrite lookup_alter_eq, Hold. simpl.
    rewrite Hqty. unfold ret. do 2 f_equal.
    unfold with_items; simpl. f_equal.
    rewrite !alter_alt, Hold, lookup_insert_eq, insert_insert_eq. reflexivity.
  - unfold ret. do 2 f_equal. unfold with_items; simpl. f_equal.
    rewrite alter_alt, Hold. reflexivity.
Qed.

Lemma edit_updates_all_but_type_witness :
  edit_selected_item 1 (Some (Form "Generic" "Stent A2" None (Some 20) (Some (120 # 1)%Q) (Some 12)))
    stocked
  = (Returns ItemUpdated,
     at_rest
       (with_items (session stocked)
          (<[1 := Item "Stent" "Stent A2" None (Some 20) (Some (120 # 1)%Q) 12]>
             (items (session stocked))))
       (identity stocked)).
Proof.
  apply (edit_updates_all_but_type (session stocked) (identity stocked) 1 stent_a
           (Form "Generic" "Stent A2" None (Some 20) (Some (120 # 1)%Q) (Some 12)));
    reflexivity.
Defined.

(** X7: an edit is two transactions. When the quantity of the form does
    not fit an INT while the rest fits its columns (a name of at most 200
    characters, a length that is an INT), the edit ends in the "Unable to
    update item" box, yet name, diameter, length and price have been
    changed and committed; only the quantity is the old one. An id that
    matches no item ends in "Item not found", and a cancelled dialog in
    nothing, both with the connection unchanged. *)
Theorem edit_is_not_atomic t n iid r :
  (forall old qty,
     items t !! iid = Some old ->
     fits_width 200 (f_name r) = true ->
     fits_opt (f_length r) = true ->
     f_qty r = Some qty ->
     fits_int qty = false ->
     exists e,
       edit_selected_item iid (Some r) (at_rest t n)
         = (Returns (UnableToUpdate e),
            at_rest
              (with_items t
                 (<[iid := Item (i_type old) (f_name r) (f_diameter r) (f_length r)
                             (f_price r) (i_qty old)]> (items t)))
              n))
  /\ (items t !! iid = None ->
      edit_selected_item iid (Some r) (at_rest t n) = (Returns ItemNotFound, at_rest t n))
  /\ (is_Some (items t !! iid) ->
      edit_selected_item iid None (at_rest t n) = (Returns Cancelled, at_rest t n)).
Proof.
  split; [|split].
  - intros old qty Hold Hname Hlen Hq Hfit. unfold edit_selected_item.
    unfold bind at 1. unfold read at 1. simpl. rewrite Hold.
    unfold try_except, bind. rewrite update_item_at_rest, Hold, Hname, Hlen, Hq. simpl.
    rewrite set_stock_at_rest. simpl. rewrite lookup_alter_eq, Hold. simpl.
    rewrite Hfit. unfold ret. exists overflow. do 2 f_equal.
    rewrite alter_alt, Hold. reflexivity.
  - intros Hnone. unfold edit_selected_item, bind, read. simpl. rewrite Hnone. reflexivity.
  - intros [old Hold]. unfold edit_selected_item, bind, read. simpl. rewrite Hold.
    reflexivity.
Qed.

Lemma edit_is_not_atomic_witness :
  (exists e,
     edit_selected_item 1 (Some (Form "Stent" "Stent A2" None None None (Some 3000000000)))
       stocked
     = (Returns (UnableToUpdate e),
        at_rest
          (with_items (session stocked)
             (<[1 := Item "Stent" "Stent A2" None None None 10]> (items (session stocked))))
          (identity stocked)))
  /\ edit_selected_item 9 (Some (Form "Stent" "x" None None None (Some 1))) stocked
     = (Returns ItemNotFound, stocked)
  /\ edit_selected_item 1 None stocked = (Returns Cancelled, stocked).
Proof.
  destruct (edit_is_not_atomic (session stocked) (identity stocked) 1
              (Form "Stent" "Stent A2" None None None (Some 3000000000)))
    as (H1 & _ & H3).
  destruct (edit_is_not_atomic (session stocked) (identity stocked) 9
              (Form "Stent" "x" None None None (Some 1))) as (_ & H2 & _).
  split; [|split].
  - apply (H1 stent_a 3000000000); reflexivity.
  - apply H2. reflexivity.
  - apply H3. exists stent_a. reflexivity.
Defined.

(** ** Whole quantities are conserved *)

Lemma run_allocations_conserve item_id calls :
  Forall int_call calls ->
  forall t n r,
    items t !! item_id = Some r ->
    exists q',
      stock (fst (run_allocations item_id calls (at_rest t n))) item_id = Some q'
      /\ q' + allocated_total item_id
                (allocations (session (fst (run_allocations item_id calls (at_rest t n)))))
         = i_qty r + allocated_total item_id (allocations t).
Proof.
  induction 1 as [|k rest Hk _ IH]; intros t n r Hr; simpl.
  - exists (i_qty r). unfold stock; simpl. rewrite Hr. auto.
  - rewrite allocate_at_rest, Hr.
    unfold int_call in Hk. destruct (c_qty k) as [m|x] eqn:Hq; [|contradiction].
    destruct (num_le (PyInt m) 0); [exact (IH t n r Hr)|].
    destruct (num_gt (PyInt m) (i_qty r)); [exact (IH t n r Hr)|].
    destruct (fits_int (c_hospital k)); [|exact (IH t _ r Hr)].
    destruct (hospitals t !! c_hospital k); [|exact (IH t _ r Hr)].
    destruct (IH (allocated t n item_id (c_hospital k) r (PyInt m) (c_price k) (c_now k))
                 (bump_allocation n) (set_qty (i_qty r - m) r)) as (q' & Hs & Hsum).
    { apply lookup_insert_eq. }
    destruct (run_allocations item_id rest _) as [c'' done]. simpl in *.
    exists q'. split; [exact Hs|]. rewrite Hsum.
    rewrite allocated_total_app. simpl. rewrite Z.eqb_refl. lia.
Qed.

(** X8: as long as every quantity passed is a Python int, a sequence of
    [allocate] calls against an item conserves units: what is left in
    stock plus what the new allocation rows of the item record equals
    the stock before, whichever calls failed. *)
Theorem integer_allocations_conserve_stock t n item_id r calls :
  items t !! item_id = Some r ->
  Forall int_call calls ->
  exists q',
    stock (fst (run_allocations item_id calls (at_rest t n))) item_id = Some q'
    /\ q' + (allocated_total item_id
               (allocations (session (fst (run_allocations item_id calls (at_rest t n)))))
             - allocated_total item_id (allocations t))
       = i_qty r.
Proof.
  intros Hr Hint.
  destruct (run_allocations_conserve item_id calls Hint t n r Hr) as (q' & Hs & Hsum).
  exists q'. split; [exact Hs|]. lia.
Qed.

Lemma integer_allocations_conserve_stock_witness :
  exists q',
    stock (fst (run_allocations 1
                  [Call 1 (PyInt 4) None 1000; Call 1 (PyInt 7) None 1001;
                   Call 2 (PyInt 6) None 1002] stocked)) 1 = Some q'
    /\ q' + (allocated_total 1
               (allocations (session (fst (run_allocations 1
                  [Call 1 (PyInt 4) None 1000; Call 1 (PyInt 7) None 1001;
                   Call 2 (PyInt 6) None 1002] stocked))))
             - allocated_total 1 (allocations (session stocked)))
       = 10.
Proof.
  apply (integer_allocations_conserve_stock (session stocked) (identity stocked) 1
           stent_a); [reflexivity|].
  repeat constructor.
Defined.

(** ** The two lists of the main window *)

#[local] Instance ts_ge_total : Total ts_ge.
Proof. intros x y. unfold ts_ge. lia. Qed.

#[local] Instance ts_ge_trans : Transitive ts_ge.
Proof. intros x y z. unfold ts_ge. lia. Qed.

Lemma select_list_from_join t :
  select_list <$> from_join t = omap (report_of t) (allocations t).
Proof.
  unfold from_join, report_of. induction (allocations t) as [|a l IH]; simpl; [reflexivity|].
  destruct (join_allocation t a); simpl; [f_equal|]; exact IH.
Qed.

(** X9: [fetch_recent_allocations] reads only. Its rows are the first
    [limit] of the joined allocations taken newest first: there are
    min(limit, number of joined rows) of them, in descending order of
    timestamp, and together with the rows left out they are, up to order,
    the report rows of all allocations, none of the rows left out being
    newer than a row returned. *)
Theorem recent_allocations_are_newest t n limit :
  exists rows rest,
    fetch_recent_allocations limit (at_rest t n) = (Returns rows, at_rest t n)
    /\ length rows = Nat.min limit (length (from_join t))
    /\ Sorted newest_first rows
    /\ rows ++ rest ≡ₚ omap (report_of t) (allocations t)
    /\ (forall x y, x ∈ rows -> y ∈ rest -> r_ts y <= r_ts x)
    /\ (referential t -> length (rows ++ rest) = length (allocations t)).
Proof.
  unfold fetch_recent_allocations, read. simpl.
  set (sorted := select_list <$> merge_sort ts_ge (from_join t)).
  assert (StronglySorted newest_first sorted) as Hsorted.
  { apply (StronglySorted_fmap _ ts_ge); [intros x y H; exact H|].
    apply StronglySorted_merge_sort; apply _. }
  assert (sorted ≡ₚ omap (report_of t) (allocations t)) as Hperm.
  { rewrite <- select_list_from_join. apply fmap_Permutation, merge_sort_Permutation. }
  exists (take limit sorted), (drop limit sorted).
  split; [reflexivity|]. split.
  { rewrite length_take. unfold sorted. rewrite length_fmap.
    rewrite (Permutation_length (merge_sort_Permutation ts_ge (from_join t))).
    reflexivity. }
  rewrite take_drop.
  split.
  { apply StronglySorted_Sorted.
    apply (StronglySorted_app_1_l _ _ (drop limit sorted)). rewrite take_drop. exact Hsorted. }
  split; [exact Hperm|]. split.
  - intros x y Hx Hy.
    apply (StronglySorted_app_1_elem_of newest_first (take limit sorted) (drop limit sorted));
      [rewrite take_drop; exact Hsorted | exact Hx | exact Hy].
  - intros Href. rewrite (Permutation_length Hperm).
    apply omap_length_total. eapply Forall_impl; [exact Href|].
    intros a. apply referential_report.
Qed.

(** X10: [fetch_hospitals] reads only and lists every hospital exactly
    once, with its own name, in the order of names of the store. *)
Theorem fetch_hospitals_lists_all (collate : relation string)
    `{!RelDecision collate} t n :
  Total collate ->
  exists rows,
    fetch_hospitals collate (at_rest t n) = (Returns rows, at_rest t n)
    /\ rows ≡ₚ map_to_list (hospitals t)
    /\ NoDup (fst <$> rows)
    /\ (forall k name, (k, name) ∈ rows <-> hospitals t !! k = Some name)
    /\ Sorted (by_name collate) rows.
Proof.
  intros Htotal. unfold fetch_hospitals, read. simpl. eexists. split; [reflexivity|].
  pose proof (merge_sort_Permutation (by_name collate) (map_to_list (hospitals t))) as Hperm.
  split; [exact Hperm|]. split; [|split].
  - rewrite Hperm. apply NoDup_fst_map_to_list.
  - intros k name. rewrite Hperm. apply elem_of_map_to_list.
  - apply Sorted_merge_sort. intros x y. apply Htotal.
Qed.

Lemma binary_order_total : Total binary_order.
Proof. intros x y. unfold binary_order. apply String.leb_total. Qed.

Lemma fetch_hospitals_lists_all_witness :
  exists rows,
    fetch_hospitals binary_order first_run = (Returns rows, first_run)
    /\ rows ≡ₚ map_to_list (hospitals (session first_run))
    /\ NoDup (fst <$> rows)
    /\ (forall k name, (k, name) ∈ rows <-> hospitals (session first_run) !! k = Some name)
    /\ Sorted (by_name binary_order) rows.
Proof.
  exact (fetch_hospitals_lists_all binary_order (session first_run) (identity first_run)
           binary_order_total).
Defined.

(** ** The report of a hospital chosen by name *)

Lemma fetch_report_rows t n hospital_id date_from date_to :
  exists rows,
    fetch_allocations_for_report hospital_id date_from date_to (at_rest t n)
      = (Returns rows, at_rest t n)
    /\ Sorted chronological rows
    /\ rows ≡ₚ omap (report_of t)
                 (List.filter (matches (int_given hospital_id) date_from date_to)
                    (allocations t)).
Proof.
  unfold fetch_allocations_for_report, read, date_given. simpl.
  eexists. split; [reflexivity|].
  set (cl := fun j : joined_row => forallb (fun c => c j) _).
  assert (select_list <$> List.filter cl (from_join t)
          = omap (report_of t)
              (List.filter (matches (int_given hospital_id) date_from date_to)
                 (allocations t))) as Hrows.
  { apply filter_join. intros a j Hj.
    destruct (join_allocation_Some t a j Hj) as [Ha Hid].
    unfold cl, matches.
    destruct (int_given hospital_id) as [h|], date_from as [d1|], date_to as [d2|]; simpl;
      rewrite ?Ha, ?Hid, ?andb_true_r, ?andb_assoc; reflexivity. }
  split.
  - apply (Sorted_fmap _ ts_le); [intros x y H; exact H|].
    apply Sorted_merge_sort, _.
  - rewrite <- Hrows. apply fmap_Permutation, merge_sort_Permutation.
Qed.

Lemma first_named_found l name hid :
  (hid, name) ∈ l ->
  (forall k, (k, name) ∈ l -> k = hid) ->
  first_named l name = Some hid.
Proof.
  induction l as [|[k v] l IH]; simpl; intros Hin Huniq; [inversion Hin|].
  destruct (String.eqb_spec v name) as [->|Hne].
  - f_equal. apply Huniq. left.
  - apply IH.
    + apply elem_of_cons in Hin as [[= -> ->]|Hin]; [contradiction|exact Hin].
    + intros k' Hk'. apply Huniq. right. exact Hk'.
Qed.

Lemma first_named_absent l name :
  (forall k, (k, name) ∉ l) -> first_named l name = None.
Proof.
  induction l as [|[k v] l IH]; simpl; intros Hout; [reflexivity|].
  destruct (String.eqb_spec v name) as [->|Hne].
  - exfalso. apply (Hout k). left.
  - apply IH. intros k' Hk'. apply (Hout k'). right. exact Hk'.
Qed.

Lemma total_count_sum rows : total_count rows = foldr (fun r s => r_qty r + s) 0 rows.
Proof.
  unfold total_count.
  assert (forall acc, foldl (fun total r => total + r_qty r) acc rows
                      = acc + foldr (fun r s => r_qty r + s) 0 rows) as H.
  { induction rows as [|r rows IH]; intros acc; simpl; [lia|]. rewrite IH. lia. }
  rewrite H. lia.
Qed.

Lemma total_count_Permutation rows rows' :
  rows ≡ₚ rows' -> total_count rows = total_count rows'.
Proof.
  rewrite !total_count_sum.
  induction 1 as [|x l l' _ IH|x y l|l l' l'' _ IH1 _ IH2]; simpl; lia.
Qed.

Lemma total_count_report t l :
  Forall (fun a => is_Some (report_of t a)) l ->
  total_count (omap (report_of t) l) = qty_total l.
Proof.
  rewrite total_count_sum.
  induction 1 as [|a l [r Hr] _ IH]; [reflexivity|].
  change (omap (report_of t) (a :: l))
    with (match report_of t a with
          | Some r => r :: omap (report_of t) l
          | None => omap (report_of t) l
          end).
  rewrite Hr. cbn [foldr qty_total]. rewrite IH. fold (qty_total l). f_equal.
  unfold report_of in Hr. destruct (join_allocation t a) as [j|] eqn:Hj; [|discriminate].
  injection Hr as <-. simpl. destruct (join_allocation_Some t a j Hj) as [-> _]. reflexivity.
Qed.

Lemma bind_read {A B} (f : tables -> A) (k : A -> M B) c :
  bind (read f) k c = k (f (session c)) c.
Proof. reflexivity. Qed.

Lemma generate_report_run (collate : relation string) `{!RelDecision collate}
    t n hosp_name date_from date_to (hid : option Z) :
  dialog_hospital (merge_sort (by_name collate) (map_to_list (hospitals t))) hosp_name
    = hid ->
  exists rows,
    generate_report collate hosp_name date_from date_to (at_rest t n)
      = (Returns (rows, total_count rows), at_rest t n)
    /\ Sorted chronological rows
    /\ rows ≡ₚ omap (report_of t)
                 (List.filter (matches (int_given hid) date_from date_to) (allocations t))
    /\ (referential t ->
        total_count rows
          = qty_total (List.filter (matches (int_given hid) date_from date_to)
                         (allocations t))).
Proof.
  intros Hhid.
  destruct (fetch_report_rows t n hid date_from date_to) as (rows & Hf & Hs & Hp).
  exists rows. split; [|split; [exact Hs|split; [exact Hp|]]].
  - unfold generate_report, fetch_hospitals. rewrite bind_read.
    change (session (at_rest t n)) with t. rewrite Hhid.
    unfold bind. rewrite Hf. reflexivity.
  - intros Href. rewrite (total_count_Permutation _ _ Hp).
    apply total_count_report, Forall_filter_intro.
    eapply Forall_impl; [exact Href|]. intros a. apply referential_report.
Qed.

(** X11: for a store whose keys are well drawn, choosing in the report
    dialog the name of an existing hospital, other than "All", reports
    that hospital: the rows are, in ascending order of timestamp, the
    report rows of its allocations within the dates, and, every
    allocation referring to rows that exist, the total printed is the sum
    of their quantities. How the store orders names does not matter. *)
Theorem report_by_name_is_that_hospital (collate : relation string)
    `{!RelDecision collate} t n hid name date_from date_to :
  well_keyed t n ->
  hospitals t !! hid = Some name ->
  name <> "All" ->
  exists rows,
    generate_report collate name date_from date_to (at_rest t n)
      = (Returns (rows, total_count rows), at_rest t n)
    /\ Sorted chronological rows
    /\ rows ≡ₚ omap (report_of t)
                 (List.filter (matches (Some hid) date_from date_to) (allocations t))
    /\ (referential t ->
        total_count rows
          = qty_total (List.filter (matches (Some hid) date_from date_to)
                         (allocations t))).
Proof.
  intros (_ & Kh & _ & _ & _ & Ku) Hname Hall.
  assert (int_given (Some hid) = Some hid) as Hgiven.
  { assert (1 <= hid) by (apply Kh; eauto). destruct hid; try reflexivity; lia. }
  rewrite <- Hgiven.
  apply generate_report_run. unfold dialog_hospital.
  destruct (String.eqb_spec name "All") as [?|_]; [contradiction|].
  apply first_named_found.
  - rewrite merge_sort_Permutation. apply elem_of_map_to_list. exact Hname.
  - intros k Hk. rewrite merge_sort_Permutation in Hk.
    apply elem_of_map_to_list in Hk. exact (Ku k hid name Hk Hname).
Qed.

(** X12: the text "All", and any text that is the name of no hospital,
    report every hospital: the rows are those of the query without a
    hospital filter. So a hospital that is itself named "All" cannot be
    reported on alone. *)
Theorem report_by_unknown_name_is_everything (collate : relation string)
    `{!RelDecision collate} t n name date_from date_to :
  name = "All" \/ (forall k, hospitals t !! k <> Some name) ->
  exists rows,
    generate_report collate name date_from date_to (at_rest t n)
      = (Returns (rows, total_count rows), at_rest t n)
    /\ Sorted chronological rows
    /\ rows ≡ₚ omap (report_of t)
                 (List.filter (matches None date_from date_to) (allocations t))
    /\ (referential t ->
        total_count rows
          = qty_total (List.filter (matches None date_from date_to) (allocations t))).
Proof.
  intros Hname. change None with (int_given None) at 1 2.
  apply generate_report_run. unfold dialog_hospital.
  destruct (String.eqb_spec name "All") as [_|Hne]; [reflexivity|].
  destruct Hname as [?|Hnone]; [contradiction|].
  apply first_named_absent. intros k Hk.
  rewrite merge_sort_Permutation in Hk. apply elem_of_map_to_list in Hk.
  exact (Hnone k Hk).
Qed.

Lemma busy_well_keyed : well_keyed (session busy) (identity busy).
Proof.
  destruct (run_well_keyed
              [AddItem "Stent" "Stent A" (Some (3 # 1)%Q) (Some 18) (Some (100 # 1)%Q)
                 (Some 10);
               Allocate 1 1 (PyInt 4) None 1000; Allocate 1 1 (PyInt 7) None 1001;
               Allocate 1 2 (PyFloat (5 # 2)%Q) None 1002;
               Allocate 1 3 (PyInt 2) (Some (90 # 1)%Q) 1003;
               Allocate 1 99 (PyInt 1) None 1004]
              (session first_run) (identity first_run) first_run_well_keyed)
    as (t & n & rows & Hrun & Hk & _).
  assert (at_rest t n = busy) as Hbusy by (rewrite <- Hrun; vm_compute; reflexivity).
  rewrite <- Hbusy. exact Hk.
Qed.

Lemma busy_referential : referential (session busy).
Proof. repeat constructor; eexists; reflexivity. Qed.

(** Bahman hospital has one allocation, of 2 units. *)
Lemma report_by_name_is_that_hospital_witness :
  exists rows,
    generate_report binary_order "Bahman hospital" None None busy
      = (Returns (rows, total_count rows), busy)
    /\ Sorted chronological rows
    /\ rows ≡ₚ omap (report_of (session busy))
                 (List.filter (matches (Some 2) None None) (allocations (session busy)))
    /\ total_count rows = 2.
Proof.
  destruct (report_by_name_is_that_hospital binary_order (session busy) (identity busy)
              2 "Bahman hospital" None None busy_well_keyed eq_refl)
    as (rows & Hg & Hs & Hp & Ht); [discriminate|].
  exists rows. split; [exact Hg|]. split; [exact Hs|]. split; [exact Hp|].
  rewrite (Ht busy_referential). reflexivity.
Defined.

(** A name that no hospital has: all three allocations, 8 units. *)
Lemma report_by_unknown_name_is_everything_witness :
  exists rows,
    generate_report binary_order "Nowhere" None None busy
      = (Returns (rows, total_count rows), busy)
    /\ length rows = 3%nat
    /\ total_count rows = 8.
Proof.
  destruct (report_by_unknown_name_is_everything binary_order (session busy)
              (identity busy) "Nowhere" None None) as (rows & Hg & _ & Hp & Ht).
  - right. intros k Hk.
    change (hospitals (session busy)) with (seeded 1) in Hk.
    apply seeded_lookup in Hk as (j & Hj & _).
    do 6 (destruct j as [|j]; [discriminate Hj|]). discriminate Hj.
  - exists rows. split; [exact Hg|]. split.
    + rewrite (Permutation_length Hp). reflexivity.
    + rewrite (Ht busy_referential). reflexivity.
Defined.

(** ** Adding an item *)

(** X13: in a store whose keys are well drawn, [add_item] with values
    that fit their columns (a type of at most 50 characters, a name of at
    most 200, a length and a quantity that are INT) returns and adds
    exactly one item, under an id that no item had, with the quantity
    passed or 0 when none is passed; every item that was there is
    unchanged, and so are hospitals and allocations. *)
Theorem add_item_adds_one t n item_type name diameter length price qty :
  well_keyed t n ->
  fits_width 50 item_type = true ->
  fits_width 200 name = true ->
  fits_opt length = true ->
  fits_int (or_zero qty) = true ->
  exists id,
    items t !! id = None
    /\ add_item item_type name diameter length price qty (at_rest t n)
       = (Returns tt,
          at_rest
            (with_items t
               (<[id := Item item_type name diameter length price (or_zero qty)]>
                  (items t)))
            (bump_item n))
    /\ (forall k r, items t !! k = Some r ->
          <[id := Item item_type name diameter length price (or_zero qty)]> (items t) !! k
            = Some r)
    /\ size (<[id := Item item_type name diameter length price (or_zero qty)]> (items t))
       = S (size (items t)).
Proof.
  intros (_ & _ & Ki & _) Hty Hnm Hl Hq. exists (next_item n).
  assert (items t !! next_item n = None) as Hfresh.
  { destruct (items t !! next_item n) eqn:Hx; [|reflexivity].
    assert (1 <= next_item n < next_item n) by (apply Ki; eauto). lia. }
  split; [exact Hfresh|]. split; [|split].
  - rewrite add_item_at_rest, Hty, Hnm, Hl, Hq. reflexivity.
  - intros k r Hk. rewrite lookup_insert_ne; [exact Hk|]. congruence.
  - apply map_size_insert_None, Hfresh.
Qed.

Lemma add_item_adds_one_witness :
  exists id,
    items (session busy) !! id = None
    /\ add_item "Generic" "Balloon" None None None None busy
       = (Returns tt,
          at_rest
            (with_items (session busy)
               (<[id := Item "Generic" "Balloon" None None None 0]> (items (session busy))))
            (bump_item (identity busy)))
    /\ (forall k r, items (session busy) !! k = Some r ->
          <[id := Item "Generic" "Balloon" None None None 0]> (items (session busy)) !! k
            = Some r)
    /\ size (<[id := Item "Generic" "Balloon" None None None 0]> (items (session busy)))
       = S (size (items (session busy))).
Proof.
  apply (add_item_adds_one (session busy) (identity busy) "Generic" "Balloon"
           None None None None busy_well_keyed); reflexivity.
Defined.

(** ** A hospital name that is taken; what [allocate] leaves alone *)

(** X14: [add_hospital] with a name that a hospital already has raises
    the UNIQUE violation; no table changes and nothing is left
    uncommitted. *)
Theorem add_hospital_rejects_taken_name t n k name :
  hospitals t !! k = Some name ->
  exists n',
    add_hospital name (at_rest t n) = (Raises unique_name, at_rest t n').
Proof.
  intros Hk. rewrite add_hospital_at_rest.
  rewrite (proj2 (name_taken (hospitals t) name)) by eauto.
  eexists. reflexivity.
Qed.

Lemma add_hospital_rejects_taken_name_witness :
  exists n',
    add_hospital "Pars hospital" stocked
      = (Raises unique_name, at_rest (session stocked) n').
Proof.
  apply (add_hospital_rejects_taken_name (session stocked) (identity stocked) 5).
  reflexivity.
Defined.

(** X15: whatever it is called with and however it ends, [allocate]
    changes no hospital and no item other than the one named, and of that
    item nothing but the quantity: type, name, diameter, length and price
    stay, so an override price is recorded in the allocation only. *)
Theorem allocate_touches_only_the_quantity t n item_id hospital_id qty override now :
  hospitals (session (snd (allocate item_id hospital_id qty override now (at_rest t n))))
    = hospitals t
  /\ (forall k, k <> item_id ->
        items (session (snd (allocate item_id hospital_id qty override now (at_rest t n))))
          !! k = items t !! k)
  /\ (forall r, items t !! item_id = Some r ->
        exists q',
          items (session (snd (allocate item_id hospital_id qty override now
                                 (at_rest t n)))) !! item_id
            = Some (set_qty q' r))
  /\ (items t !! item_id = None ->
        items (session (snd (allocate item_id hospital_id qty override now
                               (at_rest t n)))) !! item_id = None).
Proof.
  rewrite allocate_at_rest.
  destruct (items t !! item_id) as [r|] eqn:Hr.
  - assert (set_qty (i_qty r) r = r) as Hsame by (destruct r; reflexivity).
    assert (forall r0, Some r = Some r0 ->
              exists q', items t !! item_id = Some (set_qty q' r0)) as Hkept.
    { intros r0 [= <-]. exists (i_qty r). rewrite Hsame. exact Hr. }
    destruct (num_le qty 0); [simpl; repeat split; auto; congruence|].
    destruct (num_gt qty (i_qty r)); [simpl; repeat split; auto; congruence|].
    destruct (fits_int hospital_id); [|simpl; repeat split; auto; congruence].
    destruct (hospitals t !! hospital_id); simpl.
    + repeat split; auto; try congruence.
      * intros k Hne. apply lookup_insert_ne. congruence.
      * intros r0 [= <-]. eexists. apply lookup_insert_eq.
    + repeat split; auto; congruence.
  - simpl. repeat split; auto. intros r0 H0. discriminate.
Qed.

Lemma allocate_touches_only_the_quantity_witness :
  hospitals (session (snd (allocate 1 1 (PyInt 4) (Some (90 # 1)%Q) 1000 stocked)))
    = hospitals (session stocked)
  /\ items (session (snd (allocate 1 1 (PyInt 4) (Some (90 # 1)%Q) 1000 stocked))) !! 1
     = Some (set_qty 6 stent_a).
Proof.
  destruct (allocate_touches_only_the_quantity (session stocked) (identity stocked)
              1 1 (PyInt 4) (Some (90 # 1)%Q) 1000) as (Hh & _ & Hi & _).
  split; [exact Hh|].
  destruct (Hi stent_a eq_refl) as [q' Hq']. reflexivity.
Defined.

(** The two newest of the three allocations. *)
Lemma recent_allocations_are_newest_witness :
  exists rows rest,
    fetch_recent_allocations 2 busy = (Returns rows, busy)
    /\ length rows = 2%nat
    /\ Sorted newest_first rows
    /\ rows ++ rest ≡ₚ omap (report_of (session busy)) (allocations (session busy))
    /\ (forall x y, x ∈ rows -> y ∈ rest -> r_ts y <= r_ts x)
    /\ length (rows ++ rest) = 3%nat.
Proof.
  destruct (recent_allocations_are_newest (session busy) (identity busy) 2)
    as (rows & rest & Hf & Hl & Hs & Hp & Hn & Hc).
  exists rows, rest. split; [exact Hf|]. split; [exact Hl|]. split; [exact Hs|].
  split; [exact Hp|]. split; [exact Hn|]. rewrite (Hc busy_referential). reflexivity.
Defined.
